(** * Gesture classifier and interaction state machine of gestupp

    A shallow embedding of the hand-gesture classifier of the
    [useHandTracking] hook and of the per-frame [useFrame] callbacks of the
    controllable models of [Scene3D.tsx] ([SolarSystem], [CarModel],
    [ChairModel], [InteractiveModel]).

    Numbers: a JavaScript [number] is idealised as a real number, so
    [Math.sqrt] is [sqrt], [Math.pow (a, 2)] is [a ^ 2], and [Math.max] and
    [Math.min] are [Rmax] and [Rmin].  Rounding, infinities and NaN are
    outside the model. *)

From Stdlib Require Import Reals Lra Bool List Arith Lia ZArith.
From Stdlib Require String.
Import ListNotations.
Import String.StringSyntax.
Delimit Scope string_scope with string.

Open Scope R_scope.

(** ** Data model *)

(** [interface HandLandmark]. *)
Record HandLandmark : Type := mkLandmark { x : R; y : R; z : R }.

(** The anonymous object type [{ x: number; y: number }] of [palmPosition],
    [rotation], [position] and of the target refs.  The fields are named
    [px] and [py] because [x] and [y] are the projections of
    [HandLandmark]. *)
Record Point2D : Type := mkPoint { px : R; py : R }.

(** [interface GestureState]. *)
Record GestureState : Type := mkGesture {
  isZoomIn : bool;
  isZoomOut : bool;
  isOpenHand : bool;
  isFist : bool;
  isPeace : bool;
  isReset : bool;
  palmPosition : option Point2D;
  rotation : Point2D;
  position : Point2D
}.

(** The JavaScript comparison [a > b] on numbers. *)
Definition Rgtb (a b : R) : bool := if Rgt_dec a b then true else false.

(** ** The classifier ([useHandTracking]) *)

(** [isFingerExtended (tip, pip, mcp, wrist)]. *)
Definition isFingerExtended (tip pip mcp wrist : HandLandmark) : bool :=
  let tipToWrist := sqrt ((x tip - x wrist) ^ 2 + (y tip - y wrist) ^ 2) in
  let pipToWrist := sqrt ((x pip - x wrist) ^ 2 + (y pip - y wrist) ^ 2) in
  let mcpToWrist := sqrt ((x mcp - x wrist) ^ 2 + (y mcp - y wrist) ^ 2) in
  Rgtb tipToWrist (pipToWrist * 0.95) && Rgtb tipToWrist mcpToWrist.

(** [isThumbExtended (thumbTip, thumbIp, thumbMcp, wrist, indexMcp)]; as in
    the source, only [thumbTip] and [indexMcp] are read. *)
Definition isThumbExtended
    (thumbTip thumbIp thumbMcp wrist indexMcp : HandLandmark) : bool :=
  let thumbToIndexMcp :=
    sqrt ((x thumbTip - x indexMcp) ^ 2 + (y thumbTip - y indexMcp) ^ 2) in
  Rgtb thumbToIndexMcp 0.12.

(** A small error monad: [None] is the [TypeError] JavaScript throws when a
    property of [undefined] is read, which is what [handLandmarks[i].x] does
    for an index past the end of the array. *)
Definition bind {A B : Type} (m : option A) (k : A -> option B) : option B :=
  match m with
  | Some a => k a
  | None => None
  end.

Notation "'let?' a ':=' m 'in' k" := (bind m (fun a => k))
  (at level 10, a name, m at level 100, k at level 200).

(** [handLandmarks[i]]. *)
Definition at_index (handLandmarks : list HandLandmark) (i : nat)
  : option HandLandmark := nth_error handLandmarks i.

(** [calculateGesture (handLandmarks)].  The mutable ref
    [prevPalmPosition.current] is threaded: it is the second argument, and its
    new value is the second component of the result. *)
Definition calculateGesture
    (handLandmarks : list HandLandmark) (prevPalmPosition : option Point2D)
  : option (GestureState * option Point2D) :=
  let? wrist := at_index handLandmarks 0 in
  let? thumbTip := at_index handLandmarks 4 in
  let? thumbIp := at_index handLandmarks 3 in
  let? thumbMcp := at_index handLandmarks 2 in
  let? indexTip := at_index handLandmarks 8 in
  let? indexPip := at_index handLandmarks 6 in
  let? indexMcp := at_index handLandmarks 5 in
  let? middleTip := at_index handLandmarks 12 in
  let? middlePip := at_index handLandmarks 10 in
  let? middleMcp := at_index handLandmarks 9 in
  let? ringTip := at_index handLandmarks 16 in
  let? ringPip := at_index handLandmarks 14 in
  let? ringMcp := at_index handLandmarks 13 in
  let? pinkyTip := at_index handLandmarks 20 in
  let? pinkyPip := at_index handLandmarks 18 in
  let? pinkyMcp := at_index handLandmarks 17 in
  let palmX := (x wrist + x indexMcp + x middleMcp + x pinkyMcp) / 4 in
  let palmY := (y wrist + y indexMcp + y middleMcp + y pinkyMcp) / 4 in
  let palm := mkPoint palmX palmY in
  let thumbExtended :=
    isThumbExtended thumbTip thumbIp thumbMcp wrist indexMcp in
  let indexExtended := isFingerExtended indexTip indexPip indexMcp wrist in
  let middleExtended := isFingerExtended middleTip middlePip middleMcp wrist in
  let ringExtended := isFingerExtended ringTip ringPip ringMcp wrist in
  let pinkyExtended := isFingerExtended pinkyTip pinkyPip pinkyMcp wrist in
  let extendedCount :=
    length (filter (fun b : bool => b)
              [indexExtended; middleExtended; ringExtended; pinkyExtended]) in
  let zoomIn :=
    thumbExtended && indexExtended && negb middleExtended
    && negb ringExtended && negb pinkyExtended in
  let zoomOut :=
    negb thumbExtended && indexExtended && negb middleExtended
    && negb ringExtended && negb pinkyExtended in
  let openHand := (4 <=? extendedCount)%nat && thumbExtended in
  let fist := (extendedCount =? 0)%nat && negb thumbExtended in
  let peace :=
    indexExtended && middleExtended && negb ringExtended
    && negb pinkyExtended && negb thumbExtended in
  let reset :=
    thumbExtended && pinkyExtended && negb indexExtended
    && negb middleExtended && negb ringExtended in
  let rotation0 :=
    match prevPalmPosition with
    | Some prev =>
        if openHand then
          let deltaX := (px palm - px prev) * 3 in
          let deltaY := (py palm - py prev) * 3 in
          mkPoint deltaY (- deltaX)
        else mkPoint 0 0
    | None => mkPoint 0 0
    end in
  let position0 :=
    match prevPalmPosition with
    | Some prev =>
        if peace then
          let deltaX := (px palm - px prev) * 5 in
          let deltaY := (py palm - py prev) * 5 in
          mkPoint (- deltaX) (- deltaY)
        else mkPoint 0 0
    | None => mkPoint 0 0
    end in
  Some (mkGesture zoomIn zoomOut openHand fist peace reset
          (Some palm) rotation0 position0,
        Some palm).

(** [palmCenter] of [drawEnhancedLandmarks], the overlay's palm disc: the
    mean of the wrist and of the four finger base joints. *)
Definition palmCenter (handLandmarks : list HandLandmark) : option Point2D :=
  let? l0 := at_index handLandmarks 0 in
  let? l5 := at_index handLandmarks 5 in
  let? l9 := at_index handLandmarks 9 in
  let? l13 := at_index handLandmarks 13 in
  let? l17 := at_index handLandmarks 17 in
  Some (mkPoint ((x l0 + x l5 + x l9 + x l13 + x l17) / 5)
                ((y l0 + y l5 + y l9 + y l13 + y l17) / 5)).

(** The state [processResults] reads and writes: the React states
    [landmarks] and [gesture] and the ref [prevPalmPosition]. *)
Record TrackingState : Type := mkTracking {
  landmarks : option (list HandLandmark);
  gesture : GestureState;
  prevPalmPosition : option Point2D
}.

(** The initial value of the [gesture] state, which is also the value
    [processResults] sets when no hand is detected. *)
Definition noGesture : GestureState :=
  mkGesture false false false false false false None (mkPoint 0 0) (mkPoint 0 0).

(** [processResults (results)].  [canvas] says whether [canvasRef.current]
    and its 2D context exist; [resultLandmarks] is [results.landmarks], the
    detected hands ([None] for a missing field).  Drawing on the canvas is
    left out.  [None] is a thrown [TypeError]. *)
Definition processResults
    (canvas : bool) (resultLandmarks : option (list (list HandLandmark)))
    (st : TrackingState) : option TrackingState :=
  if canvas then
    match resultLandmarks with
    | Some (handLandmarks :: _) =>
        let? r := calculateGesture handLandmarks (prevPalmPosition st) in
        Some (mkTracking (Some handLandmarks) (fst r) (snd r))
    | Some [] | None =>
        Some (mkTracking None noGesture (prevPalmPosition st))
    end
  else Some st.

(** ** The interaction state machine ([Scene3D.tsx]) *)

(** The four components that a gesture controls. *)
Inductive Model : Type := SolarSystem | CarModel | ChairModel | InteractiveModel.

(** The lower bound of [targetScale]: the constant of the zoom-out line. *)
Definition scaleMin (m : Model) : R :=
  match m with
  | SolarSystem => 0.2
  | CarModel | ChairModel | InteractiveModel => 0.3
  end.

(** The upper bound of [targetScale]: the constant of the zoom-in line. *)
Definition scaleMax (m : Model) : R := 3.

(** The offset the smoothing adds to the x rotation target:
    [targetRotation.current.x + 0.2] in [SolarSystem], none elsewhere. *)
Definition tilt (m : Model) : R :=
  match m with
  | SolarSystem => 0.2
  | CarModel | ChairModel | InteractiveModel => 0
  end.

(** The refs of one component: [targetRotation], [targetPosition],
    [targetScale], [isFrozen], and [currentScale], which only [SolarSystem]
    has (the other components leave the field alone). *)
Record InteractionState : Type := mkState {
  targetRotation : Point2D;
  targetPosition : Point2D;
  targetScale : R;
  currentScale : R;
  isFrozen : bool
}.

(** What the callback reads and writes of the rendered three.js objects:
    [rotation.x], [rotation.y], [position.x], [position.y] and the uniform
    scale ([scale.x] is read, [setScalar] writes).  For [InteractiveModel]
    rotation and scale are those of [meshRef.current] and the position is
    that of [groupRef.current]; for the other components all three are those
    of [groupRef.current]. *)
Module Object3D.
Record t : Type := mk { rotation : Point2D; position : Point2D; scale : R }.
End Object3D.

(** Modelled from the spec: [THREE.MathUtils.lerp] belongs to three.js and is
    not under the sources; the specification gives it as
    [lerp (a, b, t) = a + (b - a) * t]. *)
Definition lerp (a b t : R) : R := a + (b - a) * t.

(** Lines 335-338 (and their copies): the freeze and unfreeze tests. *)
Definition freezeTransition (g : GestureState) (st : InteractionState)
  : InteractionState :=
  let frozen1 :=
    if isFist g && negb (isFrozen st) then true else isFrozen st in
  let frozen2 :=
    if negb (isFist g)
       && (isOpenHand g || isZoomIn g || isZoomOut g || isPeace g || isReset g)
    then false else frozen1 in
  mkState (targetRotation st) (targetPosition st) (targetScale st)
          (currentScale st) frozen2.

(** Lines 340-345: the reset block. *)
Definition resetTargets (g : GestureState) (st : InteractionState)
  : InteractionState :=
  if isReset g
  then mkState (mkPoint 0 0) (mkPoint 0 0) 1 (currentScale st) false
  else st.

(** Lines 348-351: open hand accumulates the rotation delta. *)
Definition rotateTarget (g : GestureState) (st : InteractionState)
  : InteractionState :=
  if isOpenHand g
  then mkState (mkPoint (px (targetRotation st) + px (rotation g))
                        (py (targetRotation st) + py (rotation g)))
               (targetPosition st) (targetScale st) (currentScale st)
               (isFrozen st)
  else st.

(** Lines 352-357: peace accumulates the position delta, then clamps. *)
Definition moveTarget (g : GestureState) (st : InteractionState)
  : InteractionState :=
  if isPeace g
  then mkState (targetRotation st)
               (mkPoint
                  (Rmax (-3) (Rmin 3 (px (targetPosition st) + px (position g))))
                  (Rmax (-2) (Rmin 2 (py (targetPosition st) + py (position g)))))
               (targetScale st) (currentScale st) (isFrozen st)
  else st.

(** Line 358: zoom in. *)
Definition zoomInTarget (m : Model) (g : GestureState) (st : InteractionState)
  : InteractionState :=
  if isZoomIn g
  then mkState (targetRotation st) (targetPosition st)
               (Rmin (scaleMax m) (targetScale st + 0.02))
               (currentScale st) (isFrozen st)
  else st.

(** Line 359: zoom out. *)
Definition zoomOutTarget (m : Model) (g : GestureState) (st : InteractionState)
  : InteractionState :=
  if isZoomOut g
  then mkState (targetRotation st) (targetPosition st)
               (Rmax (scaleMin m) (targetScale st - 0.02))
               (currentScale st) (isFrozen st)
  else st.

(** Lines 347-360: the target updates, skipped while frozen. *)
Definition updateTargets (m : Model) (g : GestureState) (st : InteractionState)
  : InteractionState :=
  if negb (isFrozen st)
  then zoomOutTarget m g (zoomInTarget m g (moveTarget g (rotateTarget g st)))
  else st.

(** Lines 362-370: the smoothing of the rendered values towards the targets.
    [SolarSystem] also stores [newScale * 0.35] in [currentScale]. *)
Definition smooth (m : Model) (st : InteractionState) (o : Object3D.t)
  : InteractionState * Object3D.t :=
  let rotX :=
    lerp (px (Object3D.rotation o)) (px (targetRotation st) + tilt m) 0.15 in
  let rotY := lerp (py (Object3D.rotation o)) (py (targetRotation st)) 0.15 in
  let posX := lerp (px (Object3D.position o)) (px (targetPosition st)) 0.15 in
  let posY := lerp (py (Object3D.position o)) (py (targetPosition st)) 0.15 in
  let newScale := lerp (Object3D.scale o) (targetScale st) 0.1 in
  (match m with
   | SolarSystem =>
       mkState (targetRotation st) (targetPosition st) (targetScale st)
               (newScale * 0.35) (isFrozen st)
   | CarModel | ChairModel | InteractiveModel => st
   end,
   Object3D.mk (mkPoint rotX rotY) (mkPoint posX posY) newScale).

(** The body of the [useFrame] callback once the refs are known to be
    mounted: one step of the state machine. *)
Definition advance (m : Model) (g : GestureState)
    (st : InteractionState) (o : Object3D.t) : InteractionState * Object3D.t :=
  smooth m (updateTargets m g (resetTargets g (freezeTransition g st))) o.

(** The [useFrame] callback.  [obj] is [None] when [groupRef.current] (or, in
    [InteractiveModel], [meshRef.current] or [groupRef.current]) is [null]:
    the callback then returns at once. *)
Definition useFrame (m : Model) (g : GestureState)
    (st : InteractionState) (obj : option Object3D.t)
  : InteractionState * option Object3D.t :=
  match obj with
  | None => (st, None)
  | Some o => let (st', o') := advance m g st o in (st', Some o')
  end.

(** The refs at the first render, and the rendered object as the JSX mounts
    it ([<group scale={0.35}>] for [SolarSystem]). *)
Definition initialState : InteractionState :=
  mkState (mkPoint 0 0) (mkPoint 0 0) 1 0.35 false.

Definition initialObject (m : Model) : Object3D.t :=
  Object3D.mk (mkPoint 0 0) (mkPoint 0 0)
    match m with SolarSystem => 0.35 | _ => 1 end.

(** The state machine over a sequence of frames: [useFrame] once per
    gesture of the list. *)
Fixpoint run (m : Model) (gs : list GestureState)
    (st : InteractionState) (obj : option Object3D.t)
  : InteractionState * option Object3D.t :=
  match gs with
  | [] => (st, obj)
  | g :: gs' => let (st', obj') := useFrame m g st obj in run m gs' st' obj'
  end.

(** The clamp range of [targetPosition]: [-3, 3] on x, [-2, 2] on y. *)
Definition inPositionRange (p : Point2D) : Prop :=
  -3 <= px p <= 3 /\ -2 <= py p <= 2.

(** The range of [targetScale] for a component. *)
Definition inScaleRange (m : Model) (s : R) : Prop :=
  scaleMin m <= s <= scaleMax m.

(** A gesture record with the given flags, in the field order of
    [GestureState], no palm and zero deltas. *)
Definition flags (zoomIn zoomOut openHand fist peace reset : bool)
  : GestureState :=
  mkGesture zoomIn zoomOut openHand fist peace reset None
    (mkPoint 0 0) (mkPoint 0 0).

(** A frame with the peace flag alone and a position delta of (+10, +10). *)
Definition peacePush : GestureState :=
  mkGesture false false false false true false None (mkPoint 0 0)
    (mkPoint 10 10).

(** The squared distance in the image plane, which the classifier's
    comparisons of Euclidean distances reduce to. *)
Definition dist2 (a b : HandLandmark) : R := (x a - x b) ^ 2 + (y a - y b) ^ 2.

(** The Euclidean distance in the image plane between two landmarks. *)
Definition dist (a b : HandLandmark) : R := sqrt (dist2 a b).

(** A pose with the hand open, the wrist at the bottom of the frame. *)
Definition openHandPose : list HandLandmark :=
  [ mkLandmark 0.45 0.60 0;      (* 0 wrist *)
    mkLandmark 0.37 0.55 0;      (* 1 thumb CMC *)
    mkLandmark 0.31 0.48 0;      (* 2 thumb MCP *)
    mkLandmark 0.26 0.42 0;      (* 3 thumb IP *)
    mkLandmark 0.22 0.36 0;      (* 4 thumb tip *)
    mkLandmark 0.39 0.36 0;      (* 5 index MCP *)
    mkLandmark 0.38 0.26 0;      (* 6 index PIP *)
    mkLandmark 0.375 0.19 0;     (* 7 index DIP *)
    mkLandmark 0.37 0.12 0;      (* 8 index tip *)
    mkLandmark 0.45 0.35 0;      (* 9 middle MCP *)
    mkLandmark 0.45 0.25 0;      (* 10 middle PIP *)
    mkLandmark 0.45 0.17 0;      (* 11 middle DIP *)
    mkLandmark 0.45 0.10 0;      (* 12 middle tip *)
    mkLandmark 0.48 0.36 0;      (* 13 ring MCP *)
    mkLandmark 0.49 0.26 0;      (* 14 ring PIP *)
    mkLandmark 0.495 0.19 0;     (* 15 ring DIP *)
    mkLandmark 0.50 0.12 0;      (* 16 ring tip *)
    mkLandmark 0.51 0.37 0;      (* 17 pinky MCP *)
    mkLandmark 0.53 0.29 0;      (* 18 pinky PIP *)
    mkLandmark 0.54 0.23 0;      (* 19 pinky DIP *)
    mkLandmark 0.55 0.18 0 ].    (* 20 pinky tip *)

(** Landmark [i] of a hand, for stating properties; on a hand of 21
    landmarks and [i < 21] it is the [handLandmarks[i]] the classifier
    reads. *)
Definition lm (h : list HandLandmark) (i : nat) : HandLandmark :=
  nth i h (mkLandmark 0 0 0).

(** How many of the six gesture flags are set. *)
Definition flagCount (g : GestureState) : nat :=
  length (filter (fun b : bool => b)
            [isZoomIn g; isZoomOut g; isOpenHand g; isFist g; isPeace g;
             isReset g]).

(** ** The rest of the hook, the overlay and the sound cues *)

(** A hand moved as a whole: every landmark shifted by the same offsets. *)
Definition translate (dx dy dz : R) (h : list HandLandmark)
  : list HandLandmark :=
  map (fun l => mkLandmark (x l + dx) (y l + dy) (z l + dz)) h.

(** A pose with the hand closed: the finger tips folded back onto the palm,
    the thumb tip next to the index base joint. *)
Definition fistPose : list HandLandmark :=
  [ mkLandmark 0.45 0.60 0;      (* 0 wrist *)
    mkLandmark 0.39 0.54 0;      (* 1 thumb CMC *)
    mkLandmark 0.36 0.47 0;      (* 2 thumb MCP *)
    mkLandmark 0.38 0.42 0;      (* 3 thumb IP *)
    mkLandmark 0.42 0.40 0;      (* 4 thumb tip *)
    mkLandmark 0.39 0.36 0;      (* 5 index MCP *)
    mkLandmark 0.38 0.30 0;      (* 6 index PIP *)
    mkLandmark 0.39 0.36 0;      (* 7 index DIP *)
    mkLandmark 0.40 0.42 0;      (* 8 index tip *)
    mkLandmark 0.45 0.35 0;      (* 9 middle MCP *)
    mkLandmark 0.45 0.29 0;      (* 10 middle PIP *)
    mkLandmark 0.45 0.35 0;      (* 11 middle DIP *)
    mkLandmark 0.45 0.42 0;      (* 12 middle tip *)
    mkLandmark 0.48 0.36 0;      (* 13 ring MCP *)
    mkLandmark 0.49 0.30 0;      (* 14 ring PIP *)
    mkLandmark 0.49 0.36 0;      (* 15 ring DIP *)
    mkLandmark 0.48 0.43 0;      (* 16 ring tip *)
    mkLandmark 0.51 0.37 0;      (* 17 pinky MCP *)
    mkLandmark 0.52 0.32 0;      (* 18 pinky PIP *)
    mkLandmark 0.52 0.37 0;      (* 19 pinky DIP *)
    mkLandmark 0.51 0.43 0 ].    (* 20 pinky tip *)

Local Open Scope string_scope.

(** Lines 169-189 of [drawEnhancedLandmarks]: the overlay's
    [primaryColor] and [secondaryColor]. *)
Definition overlayColors (gestureState : GestureState)
  : String.string * String.string :=
  if isZoomIn gestureState then ("#00ff88", "#00aa55")%string
  else if isZoomOut gestureState then ("#ff8800", "#aa5500")%string
  else if isFist gestureState then ("#8844ff", "#5522aa")%string
  else if isPeace gestureState then ("#ff44aa", "#aa2277")%string
  else if isReset gestureState then ("#ff0066", "#aa0044")%string
  else if isOpenHand gestureState then ("#00ffff", "#0088aa")%string
  else ("#00ffff", "#0088aa")%string.

(** [Array.prototype.includes] on an array of indices. *)
Definition includes (l : list nat) (index : nat) : bool :=
  existsb (Nat.eqb index) l.

(** Lines 256-259: the four classes of landmark indices. *)
Definition isFingertip (index : nat) : bool := includes [4; 8; 12; 16; 20]%nat index.
Definition isKnuckle (index : nat) : bool := includes [5; 9; 13; 17]%nat index.
Definition isJoint (index : nat) : bool :=
  includes [1; 2; 3; 6; 7; 10; 11; 14; 15; 18; 19]%nat index.
Definition isWrist (index : nat) : bool := Nat.eqb index 0.

(** Lines 275-290: the radius and the colour of the dot drawn for the
    landmark at [index]. *)
Definition pointStyle (primaryColor secondaryColor : String.string)
    (index : nat) : Z * String.string :=
  if isFingertip index then (8%Z, primaryColor)
  else if isKnuckle index then (6%Z, primaryColor)
  else if isWrist index then (10%Z, primaryColor)
  else if isJoint index then (4%Z, secondaryColor)
  else (4%Z, secondaryColor).

(** The [activeGesture] object of [GestureIndicator]. *)
Record Badge : Type := mkBadge {
  icon : String.string;
  label : String.string;
  color : String.string;
  bg : String.string;
  border : String.string
}.

(** [GestureIndicator]: the badge it renders, [None] when it renders
    nothing. *)
Definition GestureIndicator (g : GestureState) (isTracking : bool)
  : option Badge :=
  if negb isTracking then None
  else if isZoomIn g then
    Some (mkBadge "ZoomIn" "ZOOM IN" "text-green-400" "bg-green-500/20"
            "border-green-500/30")
  else if isZoomOut g then
    Some (mkBadge "ZoomOut" "ZOOM OUT" "text-orange-400" "bg-orange-500/20"
            "border-orange-500/30")
  else if isPeace g then
    Some (mkBadge "Move" "POSITION" "text-pink-400" "bg-pink-500/20"
            "border-pink-500/30")
  else if isOpenHand g then
    Some (mkBadge "Hand" "ROTATE" "text-cyan-400" "bg-cyan-500/20"
            "border-cyan-500/30")
  else if isFist g then
    Some (mkBadge "Snowflake" "FREEZE" "text-purple-400" "bg-purple-500/20"
            "border-purple-500/30")
  else if isReset g then
    Some (mkBadge "RotateCcw" "RESET" "text-red-400" "bg-red-500/20"
            "border-red-500/30")
  else None.

Local Close Scope string_scope.

(** [useSoundEffects]: the keys of [SOUND_URLS]. *)
Module Sound.

Inductive SoundType : Type := zoom | rotate | freeze | reset | move | select.

Definition eqb (a b : SoundType) : bool :=
  match a, b with
  | zoom, zoom | rotate, rotate | freeze, freeze | reset, reset
  | move, move | select, select => true
  | _, _ => false
  end.

(** The two refs of the hook: whether [audioRefs.current[type]] holds an
    audio element, and [lastPlayed.current[type]] in milliseconds. *)
Record State : Type := mkState {
  audioRefs : SoundType -> bool;
  lastPlayed : SoundType -> Z
}.

(** The refs at the first render: no audio element, every time stamp 0. *)
Definition initial : State := mkState (fun _ => false) (fun _ => 0%Z).

(** The refs once the preloading effect has run. *)
Definition preloaded (s : State) : State :=
  mkState (fun _ => true) (lastPlayed s).

(** [playSound (type, debounceMs)], with [now] the value [Date.now ()]
    returns.  The boolean says whether [audio.play ()] was called. *)
Definition playSound (now : Z) (type : SoundType) (debounceMs : Z) (s : State)
  : State * bool :=
  if (now - lastPlayed s type <? debounceMs)%Z then (s, false)
  else if audioRefs s type
       then (mkState (audioRefs s)
               (fun t => if eqb t type then now else lastPlayed s t),
             true)
       else (s, false).

(** A call of [playSound]: the clock, the type and the debounce. *)
Definition Call : Type := (Z * SoundType * Z)%type.

(** A sequence of calls; the log lists the calls that played. *)
Fixpoint playAll (calls : list Call) (s : State) : State * list Call :=
  match calls with
  | [] => (s, [])
  | (now, type, debounceMs) :: rest =>
      let (s1, played) := playSound now type debounceMs s in
      let (s2, log) := playAll rest s1 in
      (s2, if played then (now, type, debounceMs) :: log else log)
  end.

End Sound.

(** The sound effect of [Index] (lines 28-44): the [playSound] calls it
    makes, as (type, debounce) pairs in order, and the new value of the
    [prevGesture] ref.  A call without a second argument has the default
    debounce, 500. *)
Definition gestureSounds (prevGesture : option GestureState)
    (g : GestureState) : list (Sound.SoundType * Z) * option GestureState :=
  match prevGesture with
  | None => ([], Some g)
  | Some prev =>
      ((if negb (isZoomIn prev) && isZoomIn g then [(Sound.zoom, 500%Z)] else [])
       ++ (if negb (isZoomOut prev) && isZoomOut g
           then [(Sound.zoom, 500%Z)] else [])
       ++ (if negb (isOpenHand prev) && isOpenHand g
           then [(Sound.rotate, 1000%Z)] else [])
       ++ (if negb (isPeace prev) && isPeace g
           then [(Sound.move, 1000%Z)] else [])
       ++ (if negb (isFist prev) && isFist g
           then [(Sound.freeze, 500%Z)] else [])
       ++ (if negb (isReset prev) && isReset g
           then [(Sound.reset, 500%Z)] else []),
       Some g)
  end.

(** Line 261 of [SolarSystem]: the planet labels are shown when the
    [currentScale] ref exceeds 0.6. *)
Definition showLabels (st : InteractionState) : bool :=
  Rgtb (currentScale st) 0.6.

(** ** Auxiliary facts *)

Lemma Rgtb_true_iff (a b : R) : Rgtb a b = true <-> a > b.
Proof.
  unfold Rgtb. destruct (Rgt_dec a b) as [H | H]; split; intro K;
    try reflexivity; try assumption; try discriminate; contradiction.
Qed.

Lemma Rgtb_false_iff (a b : R) : Rgtb a b = false <-> a <= b.
Proof.
  unfold Rgtb. destruct (Rgt_dec a b) as [H | H]; split; intro K;
    try reflexivity; try discriminate; lra.
Qed.


Lemma dist2_nonneg (a b : HandLandmark) : 0 <= dist2 a b.
Proof. unfold dist2. apply Rplus_le_le_0_compat; apply pow2_ge_0. Qed.

Lemma sqrt_gt_scaled (a b c : R) :
  0 <= a -> 0 <= b -> 0 <= c -> (sqrt a > sqrt b * c <-> a > b * (c * c)).
Proof.
  intros Ha Hb Hc.
  assert (E : sqrt b * c = sqrt (b * (c * c))).
  { rewrite sqrt_mult by nra. rewrite sqrt_square by assumption. reflexivity. }
  rewrite E. split; intro H.
  - apply Rlt_gt. apply sqrt_lt_0_alt. exact H.
  - apply Rlt_gt. apply sqrt_lt_1_alt. split; [nra | lra].
Qed.

Lemma sqrt_gt_iff (a b : R) : 0 <= a -> 0 <= b -> (sqrt a > sqrt b <-> a > b).
Proof.
  intros Ha Hb. split; intro H.
  - apply Rlt_gt. apply sqrt_lt_0_alt. exact H.
  - apply Rlt_gt. apply sqrt_lt_1_alt. lra.
Qed.

Lemma isFingerExtended_dist (tip pip mcp wrist : HandLandmark) :
  isFingerExtended tip pip mcp wrist = true <->
  dist tip wrist > 0.95 * dist pip wrist /\ dist tip wrist > dist mcp wrist.
Proof.
  unfold isFingerExtended, dist, dist2. cbv zeta.
  rewrite andb_true_iff, !Rgtb_true_iff.
  rewrite (Rmult_comm 0.95). reflexivity.
Qed.

Lemma isFingerExtended_dist2 (tip pip mcp wrist : HandLandmark) :
  isFingerExtended tip pip mcp wrist = true <->
  dist2 tip wrist > 0.9025 * dist2 pip wrist /\ dist2 tip wrist > dist2 mcp wrist.
Proof.
  rewrite isFingerExtended_dist. unfold dist.
  rewrite (Rmult_comm 0.95).
  rewrite sqrt_gt_scaled by (try apply dist2_nonneg; lra).
  rewrite sqrt_gt_iff by apply dist2_nonneg.
  split; intros [H1 H2]; split; lra.
Qed.

Lemma isThumbExtended_dist (thumbTip thumbIp thumbMcp wrist indexMcp : HandLandmark) :
  isThumbExtended thumbTip thumbIp thumbMcp wrist indexMcp = true <->
  dist thumbTip indexMcp > 0.12.
Proof.
  unfold isThumbExtended, dist, dist2. cbv zeta. apply Rgtb_true_iff.
Qed.

Lemma isThumbExtended_dist2 (thumbTip thumbIp thumbMcp wrist indexMcp : HandLandmark) :
  isThumbExtended thumbTip thumbIp thumbMcp wrist indexMcp = true <->
  dist2 thumbTip indexMcp > 0.0144.
Proof.
  rewrite isThumbExtended_dist. unfold dist.
  assert (E : 0.12 = sqrt 0.0144 * 1).
  { replace 0.0144 with (0.12 * 0.12) by lra. rewrite sqrt_square; lra. }
  rewrite E at 1.
  rewrite sqrt_gt_scaled by (try apply dist2_nonneg; lra).
  split; lra.
Qed.

(** A list of 21 landmarks, spelled out. *)
Lemma length21_inv (h : list HandLandmark) :
  length h = 21%nat ->
  exists l0 l1 l2 l3 l4 l5 l6 l7 l8 l9 l10 l11 l12 l13 l14 l15 l16 l17 l18
         l19 l20,
    h = [l0; l1; l2; l3; l4; l5; l6; l7; l8; l9; l10; l11; l12; l13; l14; l15;
         l16; l17; l18; l19; l20].
Proof.
  intro H.
  do 21 (destruct h as [| ? h]; [discriminate H |]).
  destruct h; [| discriminate H].
  repeat eexists.
Qed.

Ltac spell_hand h H :=
  destruct (length21_inv h H)
    as (l0 & l1 & l2 & l3 & l4 & l5 & l6 & l7 & l8 & l9 & l10 & l11 & l12
        & l13 & l14 & l15 & l16 & l17 & l18 & l19 & l20 & ->).

Ltac run_classifier :=
  unfold calculateGesture; cbn [at_index nth_error bind].

(** The extension tests on [openHandPose]: all five pass. *)
Lemma openHandPose_extended :
  let l := lm openHandPose in
  isThumbExtended (l 4%nat) (l 3%nat) (l 2%nat) (l 0%nat) (l 5%nat) = true
  /\ isFingerExtended (l 8%nat) (l 6%nat) (l 5%nat) (l 0%nat) = true
  /\ isFingerExtended (l 12%nat) (l 10%nat) (l 9%nat) (l 0%nat) = true
  /\ isFingerExtended (l 16%nat) (l 14%nat) (l 13%nat) (l 0%nat) = true
  /\ isFingerExtended (l 20%nat) (l 18%nat) (l 17%nat) (l 0%nat) = true.
Proof.
  intros l. unfold l, lm, openHandPose. cbn [nth].
  split; [apply isThumbExtended_dist2; unfold dist2; cbn [x y]; lra |].
  repeat split; apply isFingerExtended_dist2; unfold dist2; cbn [x y];
    split; lra.
Qed.

(** The classifier on a hand of 21 landmarks: it returns, stores the palm
    point it returns, and its outputs are these functions of the five
    extension tests. *)
Lemma calculateGesture_spelled (h : list HandLandmark) (prev : option Point2D) :
  length h = 21%nat ->
  let l := lm h in
  let thumb := isThumbExtended (l 4%nat) (l 3%nat) (l 2%nat) (l 0%nat) (l 5%nat) in
  let index := isFingerExtended (l 8%nat) (l 6%nat) (l 5%nat) (l 0%nat) in
  let middle := isFingerExtended (l 12%nat) (l 10%nat) (l 9%nat) (l 0%nat) in
  let ring := isFingerExtended (l 16%nat) (l 14%nat) (l 13%nat) (l 0%nat) in
  let pinky := isFingerExtended (l 20%nat) (l 18%nat) (l 17%nat) (l 0%nat) in
  let palm :=
    mkPoint ((x (l 0%nat) + x (l 5%nat) + x (l 9%nat) + x (l 17%nat)) / 4)
            ((y (l 0%nat) + y (l 5%nat) + y (l 9%nat) + y (l 17%nat)) / 4) in
  exists g,
    calculateGesture h prev = Some (g, Some palm)
    /\ palmPosition g = Some palm
    /\ isZoomIn g = thumb && index && negb middle && negb ring && negb pinky
    /\ isZoomOut g = negb thumb && index && negb middle && negb ring && negb pinky
    /\ isOpenHand g = index && middle && ring && pinky && thumb
    /\ isFist g = negb index && negb middle && negb ring && negb pinky && negb thumb
    /\ isPeace g = index && middle && negb ring && negb pinky && negb thumb
    /\ isReset g = thumb && pinky && negb index && negb middle && negb ring
    /\ rotation g =
         match prev with
         | Some q =>
             if isOpenHand g
             then mkPoint ((py palm - py q) * 3) (- ((px palm - px q) * 3))
             else mkPoint 0 0
         | None => mkPoint 0 0
         end
    /\ position g =
         match prev with
         | Some q =>
             if isPeace g
             then mkPoint (- ((px palm - px q) * 5)) (- ((py palm - py q) * 5))
             else mkPoint 0 0
         | None => mkPoint 0 0
         end.
Proof.
  intro H. spell_hand h H. cbv zeta. unfold lm. cbn [nth].
  run_classifier.
  eexists. split; [reflexivity |].
  cbn [palmPosition isZoomIn isZoomOut isOpenHand isFist isPeace isReset
       rotation position].
  generalize (isThumbExtended l4 l3 l2 l0 l5) (isFingerExtended l8 l6 l5 l0)
    (isFingerExtended l12 l10 l9 l0) (isFingerExtended l16 l14 l13 l0)
    (isFingerExtended l20 l18 l17 l0).
  intros [] [] [] [] []; repeat split; reflexivity.
Qed.

(** The classifier on [openHandPose]: open hand and nothing else, the palm
    point at (0.45, 0.42). *)
Lemma openHandPose_classified (prev : option Point2D) :
  exists g,
    calculateGesture openHandPose prev = Some (g, Some (mkPoint 0.45 0.42))
    /\ palmPosition g = Some (mkPoint 0.45 0.42)
    /\ isZoomIn g = false
    /\ isZoomOut g = false
    /\ isOpenHand g = true
    /\ isFist g = false
    /\ isPeace g = false
    /\ isReset g = false
    /\ rotation g =
         match prev with
         | Some q => mkPoint ((0.42 - py q) * 3) (- ((0.45 - px q) * 3))
         | None => mkPoint 0 0
         end
    /\ position g = mkPoint 0 0.
Proof.
  destruct openHandPose_extended as (Ht & Hi & Hm & Hr & Hp).
  destruct (calculateGesture_spelled openHandPose prev eq_refl)
    as (g & Hrun & Hpalm & Hzi & Hzo & Hoh & Hfi & Hpe & Hre & Hrot & Hpos).
  rewrite Ht, Hi, Hm, Hr, Hp in Hzi, Hzo, Hoh, Hfi, Hpe, Hre.
  cbn [andb negb] in Hzi, Hzo, Hoh, Hfi, Hpe, Hre.
  rewrite Hoh in Hrot. rewrite Hpe in Hpos.
  unfold lm, openHandPose in Hrun, Hpalm, Hrot, Hpos.
  cbn [nth x y px py] in Hrun, Hpalm, Hrot, Hpos.
  assert (Ex : (0.45 + 0.39 + 0.45 + 0.51) / 4 = 0.45) by lra.
  assert (Ey : (0.60 + 0.36 + 0.35 + 0.37) / 4 = 0.42) by lra.
  rewrite Ex, Ey in Hrun, Hpalm, Hrot.
  exists g. repeat split; try assumption.
  destruct prev; assumption.
Qed.

(** ** The classifier: claims *)

(** C1 (the code departs from the claim).  On [openHandPose] the classifier
    returns as [palmPosition] the mean of four points, the wrist and the
    index, middle and pinky base joints, (0.45, 0.42); the mean of the five
    points of the claim, which the overlay's [palmCenter] computes from the
    same landmarks, is (0.456, 0.408).  The ring base joint is left out of
    [palmPosition]. *)
Theorem C1_palmPosition_leaves_out_ring_mcp :
  exists g,
    calculateGesture openHandPose None = Some (g, palmPosition g)
    /\ palmPosition g = Some (mkPoint 0.45 0.42)
    /\ palmCenter openHandPose = Some (mkPoint 0.456 0.408)
    /\ palmPosition g <> palmCenter openHandPose.
Proof.
  destruct (openHandPose_classified None) as (g & Hrun & Hpalm & _).
  exists g. rewrite Hrun, Hpalm.
  unfold palmCenter, openHandPose. cbn [at_index nth_error bind x y].
  repeat split.
  - do 2 f_equal; lra.
  - intro K. injection K as Kx _. lra.
Qed.

(** C6.  On every hand of 21 landmarks the classifier returns, and at most
    one of the six gesture flags of its result is set. *)
Theorem C6_at_most_one_gesture_flag
    (h : list HandLandmark) (prev : option Point2D) :
  length h = 21%nat ->
  exists g p,
    calculateGesture h prev = Some (g, p) /\ (flagCount g <= 1)%nat.
Proof.
  intro H.
  destruct (calculateGesture_spelled h prev H)
    as (g & Hrun & _ & Hzi & Hzo & Hoh & Hfi & Hpe & Hre & _).
  exists g. eexists. split; [exact Hrun |].
  unfold flagCount. rewrite Hzi, Hzo, Hoh, Hfi, Hpe, Hre.
  destruct (isThumbExtended _ _ _ _ _),
    (isFingerExtended (lm h 8) _ _ _), (isFingerExtended (lm h 12) _ _ _),
    (isFingerExtended (lm h 16) _ _ _), (isFingerExtended (lm h 20) _ _ _);
    cbn; lia.
Qed.

Lemma C6_at_most_one_gesture_flag_witness :
  length openHandPose = 21%nat
  /\ exists g p,
       calculateGesture openHandPose None = Some (g, p)
       /\ (flagCount g <= 1)%nat.
Proof.
  split; [reflexivity |].
  apply (C6_at_most_one_gesture_flag openHandPose None). reflexivity.
Defined.

(** C7.  With a hand of 21 landmarks the classifier returns a gesture whose
    [palmPosition] is some point [cur], and: when a previous palm position
    [q] exists and open hand is set, the rotation delta is
    ((cur.y - q.y) * 3, -(cur.x - q.x) * 3); when open hand is not set, or
    no previous palm position exists, it is (0, 0).  On [openHandPose],
    whose palm point is (0.45, 0.42), after a frame whose palm point was
    (0.4, 0.4), open hand is set and the rotation delta is (0.06, -0.15). *)
Theorem C7_rotation_delta :
  (forall (h : list HandLandmark) (prev : option Point2D),
      length h = 21%nat ->
      exists g cur,
        calculateGesture h prev = Some (g, Some cur)
        /\ palmPosition g = Some cur
        /\ (forall q, prev = Some q -> isOpenHand g = true ->
            rotation g =
              mkPoint ((py cur - py q) * 3) (- (px cur - px q) * 3))
        /\ (isOpenHand g = false -> rotation g = mkPoint 0 0)
        /\ (prev = None -> rotation g = mkPoint 0 0))
  /\ exists g,
       calculateGesture openHandPose (Some (mkPoint 0.4 0.4))
         = Some (g, Some (mkPoint 0.45 0.42))
       /\ isOpenHand g = true
       /\ palmPosition g = Some (mkPoint 0.45 0.42)
       /\ rotation g = mkPoint 0.06 (-0.15).
Proof.
  assert (E4 : forall a b c d : R, a = c -> b = d -> mkPoint a b = mkPoint c d)
    by (intros; subst; reflexivity).
  split.
  - intros h prev H.
    destruct (calculateGesture_spelled h prev H)
      as (g & Hrun & Hpalm & _ & _ & _ & _ & _ & _ & Hrot & _).
    exists g. eexists. split; [exact Hrun |]. split; [exact Hpalm |].
    rewrite Hrot. repeat split.
    + intros q -> ->. apply E4; cbn [px py]; lra.
    + intros ->. destruct prev; reflexivity.
    + intros ->. reflexivity.
  - destruct (openHandPose_classified (Some (mkPoint 0.4 0.4)))
      as (g & Hrun & Hpalm & _ & _ & Hoh & _ & _ & _ & Hrot & _).
    exists g. rewrite Hpalm, Hrot. cbn [px py].
    repeat split; try assumption. apply E4; lra.
Qed.

Lemma C7_rotation_delta_witness :
  length openHandPose = 21%nat
  /\ exists g cur,
       calculateGesture openHandPose (Some (mkPoint 0.4 0.4))
         = Some (g, Some cur)
       /\ palmPosition g = Some cur.
Proof.
  split; [reflexivity |].
  destruct (proj1 C7_rotation_delta openHandPose (Some (mkPoint 0.4 0.4))
              eq_refl) as (g & cur & Hrun & Hpalm & _).
  exists g, cur. split; assumption.
Defined.

(** C8.  On a hand of 21 landmarks whose index, middle, ring and pinky tips
    are each farther from the wrist than 0.95 times the distance of the
    finger's proximal joint to the wrist and farther than the finger's base
    joint, and whose thumb tip is farther than 0.12 from the index base
    joint, the classifier reports open hand and none of the other five
    gestures. *)
Theorem C8_open_hand_only
    (h : list HandLandmark) (prev : option Point2D) :
  length h = 21%nat ->
  (forall tip pip mcp : nat,
      In (tip, pip, mcp)
         [(8, 6, 5); (12, 10, 9); (16, 14, 13); (20, 18, 17)]%nat ->
      dist (lm h tip) (lm h 0) > 0.95 * dist (lm h pip) (lm h 0)
      /\ dist (lm h tip) (lm h 0) > dist (lm h mcp) (lm h 0)) ->
  dist (lm h 4) (lm h 5) > 0.12 ->
  exists g p,
    calculateGesture h prev = Some (g, p)
    /\ isOpenHand g = true
    /\ isZoomIn g = false /\ isZoomOut g = false /\ isFist g = false
    /\ isPeace g = false /\ isReset g = false.
Proof.
  intros H Hfingers Hthumb.
  destruct (calculateGesture_spelled h prev H)
    as (g & Hrun & _ & Hzi & Hzo & Hoh & Hfi & Hpe & Hre & _).
  assert (Hi : isFingerExtended (lm h 8) (lm h 6) (lm h 5) (lm h 0) = true)
    by (apply isFingerExtended_dist, Hfingers; cbn; auto).
  assert (Hm : isFingerExtended (lm h 12) (lm h 10) (lm h 9) (lm h 0) = true)
    by (apply isFingerExtended_dist, Hfingers; cbn; auto).
  assert (Hr : isFingerExtended (lm h 16) (lm h 14) (lm h 13) (lm h 0) = true)
    by (apply isFingerExtended_dist, Hfingers; cbn; auto).
  assert (Hp : isFingerExtended (lm h 20) (lm h 18) (lm h 17) (lm h 0) = true)
    by (apply isFingerExtended_dist, Hfingers; cbn; auto 6).
  assert (Ht : isThumbExtended (lm h 4) (lm h 3) (lm h 2) (lm h 0) (lm h 5)
               = true)
    by (apply isThumbExtended_dist; exact Hthumb).
  rewrite Ht, Hi, Hm, Hr, Hp in Hzi, Hzo, Hoh, Hfi, Hpe, Hre.
  exists g. eexists. split; [exact Hrun |].
  repeat split; assumption.
Qed.

Lemma C8_open_hand_only_witness :
  exists g p,
    calculateGesture openHandPose None = Some (g, p)
    /\ isOpenHand g = true
    /\ isZoomIn g = false /\ isZoomOut g = false /\ isFist g = false
    /\ isPeace g = false /\ isReset g = false.
Proof.
  apply (C8_open_hand_only openHandPose None).
  - reflexivity.
  - destruct openHandPose_extended as (_ & Hi & Hm & Hr & Hp).
    intros tip pip mcp Hin. cbn [In] in Hin.
    repeat (destruct Hin as [Hin | Hin];
            [injection Hin as <- <- <-; apply isFingerExtended_dist;
             assumption |]).
    contradiction.
  - apply (isThumbExtended_dist _ (lm openHandPose 3) (lm openHandPose 2)
             (lm openHandPose 0)).
    apply openHandPose_extended.
Defined.

(** C4.  With the canvas mounted, a frame without a hand ([results.landmarks]
    missing or empty) sets the gesture to all six flags false,
    [palmPosition] null and both deltas (0, 0), whatever the state before,
    and leaves the stored previous palm position as it was. *)
Theorem C4_absent_hand (st : TrackingState) :
  forall absent, In absent [None; Some []] ->
  exists st',
    processResults true absent st = Some st'
    /\ isZoomIn (gesture st') = false /\ isZoomOut (gesture st') = false
    /\ isOpenHand (gesture st') = false /\ isFist (gesture st') = false
    /\ isPeace (gesture st') = false /\ isReset (gesture st') = false
    /\ palmPosition (gesture st') = None
    /\ rotation (gesture st') = mkPoint 0 0
    /\ position (gesture st') = mkPoint 0 0
    /\ prevPalmPosition st' = prevPalmPosition st.
Proof.
  intros absent [<- | [<- | []]]; eexists; (split; [reflexivity |]);
    cbn; repeat split.
Qed.

Lemma C4_absent_hand_witness :
  exists st',
    processResults true (Some [])
      (mkTracking (Some openHandPose) noGesture (Some (mkPoint 0.45 0.42)))
    = Some st'
    /\ palmPosition (gesture st') = None
    /\ prevPalmPosition st' = Some (mkPoint 0.45 0.42).
Proof.
  destruct (C4_absent_hand
              (mkTracking (Some openHandPose) noGesture
                 (Some (mkPoint 0.45 0.42)))
              (Some []) (or_intror (or_introl eq_refl)))
    as (st' & Hrun & _ & _ & _ & _ & _ & _ & Hpalm & _ & _ & Hprev).
  exists st'. repeat split; assumption.
Defined.

(** ** The state machine: auxiliary facts *)

Lemma useFrame_mounted (m : Model) (g : GestureState)
    (st : InteractionState) (o : Object3D.t) :
  useFrame m g st (Some o)
  = (fst (advance m g st o), Some (snd (advance m g st o))).
Proof. unfold useFrame. destruct (advance m g st o); reflexivity. Qed.

Lemma useFrame_unmounted (m : Model) (g : GestureState) (st : InteractionState) :
  useFrame m g st None = (st, None).
Proof. reflexivity. Qed.

(** The smoothing leaves the targets and the frozen flag alone. *)
Lemma smooth_refs (m : Model) (st : InteractionState) (o : Object3D.t) :
  targetRotation (fst (smooth m st o)) = targetRotation st
  /\ targetPosition (fst (smooth m st o)) = targetPosition st
  /\ targetScale (fst (smooth m st o)) = targetScale st
  /\ isFrozen (fst (smooth m st o)) = isFrozen st.
Proof. destruct m; repeat split. Qed.

(** The frozen flag after a frame. *)
Lemma advance_isFrozen (m : Model) (g : GestureState)
    (st : InteractionState) (o : Object3D.t) :
  isFrozen (fst (advance m g st o))
  = if isReset g then false
    else if isFist g then true
    else if isOpenHand g || isZoomIn g || isZoomOut g || isPeace g
         then false
         else isFrozen st.
Proof.
  unfold advance.
  destruct (smooth_refs m (updateTargets m g (resetTargets g
                             (freezeTransition g st))) o) as (_ & _ & _ & ->).
  unfold updateTargets, zoomOutTarget, zoomInTarget, moveTarget, rotateTarget,
    resetTargets, freezeTransition.
  destruct st as [tr tp ts cs fr], g as [zi zo oh fi pe re pp rot pos].
  cbn [isFrozen isFist isReset isOpenHand isZoomIn isZoomOut isPeace
       targetRotation targetPosition targetScale currentScale].
  destruct re, fi, oh, zi, zo, pe, fr; reflexivity.
Qed.

Ltac unfold_frame :=
  unfold advance;
  match goal with
  | |- context [smooth ?m ?s ?o] =>
      let E1 := fresh in let E2 := fresh in
      let E3 := fresh in let E4 := fresh in
      destruct (smooth_refs m s o) as (E1 & E2 & E3 & E4);
      rewrite ?E1, ?E2, ?E3, ?E4; clear E1 E2 E3 E4
  end;
  unfold updateTargets, zoomOutTarget, zoomInTarget, moveTarget, rotateTarget,
    resetTargets, freezeTransition.

Ltac frame_cases st g :=
  destruct st as [tr tp ts cs fr], g as [zi zo oh fi pe re pp rot pos];
  cbn [isFrozen isFist isReset isOpenHand isZoomIn isZoomOut isPeace
       targetRotation targetPosition targetScale currentScale rotation
       position];
  destruct re, fi, oh, zi, zo, pe, fr.

(** The targets after a frame, by the frozen flag the frame ends with (that
    is the flag the update block tests: nothing later writes it). *)
Lemma advance_targets (m : Model) (g : GestureState)
    (st : InteractionState) (o : Object3D.t) :
  let st' := fst (advance m g st o) in
  let r0 := if isReset g then mkPoint 0 0 else targetRotation st in
  let p0 := if isReset g then mkPoint 0 0 else targetPosition st in
  let s0 := if isReset g then 1 else targetScale st in
  let s1 := if isZoomIn g then Rmin (scaleMax m) (s0 + 0.02) else s0 in
  targetRotation st'
  = (if isFrozen st' then r0
     else if isOpenHand g
          then mkPoint (px r0 + px (rotation g)) (py r0 + py (rotation g))
          else r0)
  /\ targetPosition st'
     = (if isFrozen st' then p0
        else if isPeace g
             then mkPoint (Rmax (-3) (Rmin 3 (px p0 + px (position g))))
                          (Rmax (-2) (Rmin 2 (py p0 + py (position g))))
             else p0)
  /\ targetScale st'
     = (if isFrozen st' then s0
        else if isZoomOut g then Rmax (scaleMin m) (s1 - 0.02) else s1).
Proof.
  cbv zeta. rewrite advance_isFrozen. unfold_frame.
  frame_cases st g; repeat split.
Qed.

(** One smoothing step does not move a value away from its target. *)
Lemma lerp_contracts (c t f : R) :
  0 <= f <= 1 -> Rabs (lerp c t f - t) <= Rabs (c - t).
Proof.
  intros Hf. unfold lerp.
  replace (c + (t - c) * f - t) with ((1 - f) * (c - t)) by ring.
  rewrite Rabs_mult. rewrite (Rabs_pos_eq (1 - f)) by lra.
  pose proof (Rabs_pos (c - t)). nra.
Qed.

(** The rendered values after a frame. *)
Lemma advance_object (m : Model) (g : GestureState)
    (st : InteractionState) (o : Object3D.t) :
  let st' := fst (advance m g st o) in
  let o' := snd (advance m g st o) in
  px (Object3D.rotation o')
  = lerp (px (Object3D.rotation o)) (px (targetRotation st') + tilt m) 0.15
  /\ py (Object3D.rotation o')
     = lerp (py (Object3D.rotation o)) (py (targetRotation st')) 0.15
  /\ px (Object3D.position o')
     = lerp (px (Object3D.position o)) (px (targetPosition st')) 0.15
  /\ py (Object3D.position o')
     = lerp (py (Object3D.position o)) (py (targetPosition st')) 0.15
  /\ Object3D.scale o' = lerp (Object3D.scale o) (targetScale st') 0.1.
Proof.
  cbv zeta. unfold advance.
  set (s := updateTargets m g (resetTargets g (freezeTransition g st))).
  destruct (smooth_refs m s o) as (-> & -> & -> & _).
  repeat split.
Qed.

Lemma run_unmounted (m : Model) (gs : list GestureState) (st : InteractionState) :
  run m gs st None = (st, None).
Proof. induction gs as [| g gs IH]; [reflexivity | exact IH]. Qed.

Lemma run_cons_mounted (m : Model) (g : GestureState) (gs : list GestureState)
    (st : InteractionState) (o : Object3D.t) :
  run m (g :: gs) st (Some o)
  = run m gs (fst (advance m g st o)) (Some (snd (advance m g st o))).
Proof. cbn [run]. rewrite useFrame_mounted. reflexivity. Qed.

(** ** The state machine: claims *)

(** C2, as stated, fails: a frame that reports both fist and open hand
    leaves a frozen machine frozen, since the unfreeze test of the callback
    starts with [!gesture.isFist]. *)
Lemma C2_fist_with_open_hand_stays_frozen :
  ~ (forall (m : Model) (g : GestureState) (st : InteractionState)
            (o : Object3D.t),
        isFrozen st = true ->
        isOpenHand g || isZoomIn g || isZoomOut g || isPeace g || isReset g
        = true ->
        isFrozen (fst (useFrame m g st (Some o))) = false).
Proof.
  intro claim.
  specialize (claim CarModel (flags false false true true false false)
                (mkState (mkPoint 0 0) (mkPoint 0 0) 1 0.35 true)
                (initialObject CarModel) eq_refl eq_refl).
  rewrite useFrame_mounted in claim. cbn [fst] in claim.
  rewrite advance_isFrozen in claim. discriminate claim.
Qed.

(** C2, amended.  From the Frozen state, a frame in which at least one of
    open hand, zoom in, zoom out, peace or reset is set, and in which fist is
    not set or reset is set, leaves the machine Active; a frame with fist set
    and reset not set (so also one in which fist is the only flag), repeated
    any number of times, leaves it Frozen. *)
Theorem C2_unfreeze_unless_fist :
  (forall (m : Model) (g : GestureState) (st : InteractionState)
          (o : Object3D.t),
      isFrozen st = true ->
      isOpenHand g || isZoomIn g || isZoomOut g || isPeace g || isReset g
      = true ->
      isFist g = false \/ isReset g = true ->
      isFrozen (fst (useFrame m g st (Some o))) = false)
  /\ (forall (m : Model) (g : GestureState) (n : nat) (st : InteractionState)
             (obj : option Object3D.t),
         isFrozen st = true ->
         isFist g = true -> isReset g = false ->
         isFrozen (fst (run m (repeat g n) st obj)) = true).
Proof.
  split.
  - intros m g st o _ Hany Hok.
    rewrite useFrame_mounted. cbn [fst]. rewrite advance_isFrozen.
    destruct (isReset g); [reflexivity |].
    destruct Hok as [-> | K]; [| discriminate K].
    rewrite orb_false_r in Hany. rewrite Hany. reflexivity.
  - intros m g n st obj Hfr Hfist Hreset.
    destruct obj as [o |]; [| rewrite run_unmounted; exact Hfr].
    revert st o Hfr. induction n as [| n IH]; intros st o Hfr.
    + exact Hfr.
    + cbn [repeat]. rewrite run_cons_mounted. apply IH.
      rewrite advance_isFrozen, Hreset, Hfist. reflexivity.
Qed.

Lemma C2_unfreeze_unless_fist_witness :
  isFrozen (fst (useFrame SolarSystem (flags false false false false true false)
                   (mkState (mkPoint 0 0) (mkPoint 0 0) 1 0.35 true)
                   (Some (initialObject SolarSystem)))) = false
  /\ isFrozen (fst (run SolarSystem
                      (repeat (flags false false false true false false) 3)
                      (mkState (mkPoint 0 0) (mkPoint 0 0) 1 0.35 true)
                      (Some (initialObject SolarSystem)))) = true.
Proof.
  split.
  - apply (proj1 C2_unfreeze_unless_fist); [reflexivity | reflexivity |].
    left. reflexivity.
  - apply (proj2 C2_unfreeze_unless_fist); reflexivity.
Defined.

(** C3, as stated, fails: a frame that reports both reset and zoom in ends
    with [targetScale] at min (3, 1 + 0.02), not at 1, because the update
    block runs after the reset block on the same frame. *)
Lemma C3_reset_with_zoom_in_moves_scale :
  ~ (forall (m : Model) (g : GestureState) (st : InteractionState)
            (o : Object3D.t),
        isReset g = true ->
        let st' := fst (useFrame m g st (Some o)) in
        targetRotation st' = mkPoint 0 0
        /\ targetPosition st' = mkPoint 0 0
        /\ targetScale st' = 1
        /\ isFrozen st' = false).
Proof.
  intro claim.
  destruct (claim CarModel (flags true false false false false true)
              initialState (initialObject CarModel) eq_refl)
    as (_ & _ & Hscale & _).
  rewrite useFrame_mounted in Hscale. cbn [fst] in Hscale.
  destruct (advance_targets CarModel (flags true false false false false true)
              initialState (initialObject CarModel)) as (_ & _ & E).
  rewrite Hscale, advance_isFrozen in E.
  unfold flags, scaleMax in E.
  cbn [isReset isFist isZoomIn isZoomOut isOpenHand isPeace] in E.
  unfold Rmin in E. destruct (Rle_dec 3 (1 + 0.02)); lra.
Qed.

(** C3, amended.  After a frame in which reset is set the machine is Active,
    also when the frame reports fist as well; [targetRotation] is (0, 0)
    unless the frame also reports open hand, [targetPosition] is (0, 0)
    unless it also reports peace, and [targetScale] is 1 unless it also
    reports zoom in or zoom out. *)
Theorem C3_reset_dominates
    (m : Model) (g : GestureState) (st : InteractionState) (o : Object3D.t) :
  isReset g = true ->
  let st' := fst (useFrame m g st (Some o)) in
  isFrozen st' = false
  /\ (isOpenHand g = false -> targetRotation st' = mkPoint 0 0)
  /\ (isPeace g = false -> targetPosition st' = mkPoint 0 0)
  /\ (isZoomIn g = false -> isZoomOut g = false -> targetScale st' = 1).
Proof.
  intros Hreset st'. unfold st'. rewrite useFrame_mounted. cbn [fst].
  destruct (advance_targets m g st o) as (Er & Ep & Es).
  rewrite Er, Ep, Es, advance_isFrozen, Hreset.
  repeat split.
  - intros ->. reflexivity.
  - intros ->. reflexivity.
  - intros -> ->. reflexivity.
Qed.

Lemma C3_reset_dominates_witness :
  let st' :=
    fst (useFrame ChairModel (flags false false false true false true)
           (mkState (mkPoint 1 2) (mkPoint 3 2) 2.5 0.35 true)
           (Some (initialObject ChairModel))) in
  isFrozen st' = false
  /\ targetRotation st' = mkPoint 0 0
  /\ targetPosition st' = mkPoint 0 0
  /\ targetScale st' = 1.
Proof.
  intro st'.
  destruct (C3_reset_dominates ChairModel
              (flags false false false true false true)
              (mkState (mkPoint 1 2) (mkPoint 3 2) 2.5 0.35 true)
              (initialObject ChairModel) eq_refl) as (Hf & Hr & Hp & Hs).
  split; [exact Hf |].
  split; [apply Hr; reflexivity |].
  split; [apply Hp; reflexivity | apply Hs; reflexivity].
Defined.

(** C5, as stated, fails for the solar system: its x rotation is smoothed
    towards [targetRotation.x + 0.2], so at the first frame, with the rendered
    rotation and the target both at 0, the rendered x rotation moves to 0.03,
    away from the target. *)
Lemma C5_solar_system_tilt_moves_away :
  ~ (forall (m : Model) (g : GestureState) (st st' : InteractionState)
            (o o' : Object3D.t),
        useFrame m g st (Some o) = (st', Some o') ->
        Rabs (px (Object3D.rotation o') - px (targetRotation st'))
        <= Rabs (px (Object3D.rotation o) - px (targetRotation st'))).
Proof.
  intro claim.
  specialize (claim SolarSystem noGesture initialState _
                (initialObject SolarSystem) _ (useFrame_mounted _ _ _ _)).
  destruct (advance_object SolarSystem noGesture initialState
              (initialObject SolarSystem)) as (Ex & _).
  destruct (advance_targets SolarSystem noGesture initialState
              (initialObject SolarSystem)) as (Er & _).
  rewrite Ex, Er, advance_isFrozen in claim.
  unfold lerp in claim. cbn in claim.
  replace (0 + (0 + 0.2 - 0) * 0.15 - 0) with 0.03 in claim by lra.
  replace (0 - 0) with 0 in claim by lra.
  rewrite Rabs_R0, Rabs_pos_eq in claim; lra.
Qed.

(** C5, amended.  On every frame with the refs mounted, Frozen or not, the
    rendered x rotation becomes lerp (current, targetRotation.x + tilt, 0.15),
    where tilt is 0.2 for the solar system and 0 for the car, the chair and
    the interactive model; the rendered y rotation and position become
    lerp (current, target, 0.15) and the rendered scale lerp (current,
    targetScale, 0.1); and each rendered value is no farther from the value
    it is smoothed towards after the frame than before. *)
Theorem C5_smoothing_contracts
    (m : Model) (g : GestureState) (st : InteractionState) (o : Object3D.t) :
  exists st' o',
    useFrame m g st (Some o) = (st', Some o')
    /\ (let cur := Object3D.rotation o in
        let cur' := Object3D.rotation o' in
        let target := targetRotation st' in
        px cur' = lerp (px cur) (px target + tilt m) 0.15
        /\ py cur' = lerp (py cur) (py target) 0.15
        /\ Rabs (px cur' - (px target + tilt m))
           <= Rabs (px cur - (px target + tilt m))
        /\ Rabs (py cur' - py target) <= Rabs (py cur - py target))
    /\ (let cur := Object3D.position o in
        let cur' := Object3D.position o' in
        let target := targetPosition st' in
        px cur' = lerp (px cur) (px target) 0.15
        /\ py cur' = lerp (py cur) (py target) 0.15
        /\ Rabs (px cur' - px target) <= Rabs (px cur - px target)
        /\ Rabs (py cur' - py target) <= Rabs (py cur - py target))
    /\ (let cur := Object3D.scale o in
        let cur' := Object3D.scale o' in
        let target := targetScale st' in
        cur' = lerp cur target 0.1
        /\ Rabs (cur' - target) <= Rabs (cur - target))
    /\ tilt SolarSystem = 0.2
    /\ tilt CarModel = 0 /\ tilt ChairModel = 0 /\ tilt InteractiveModel = 0.
Proof.
  exists (fst (advance m g st o)), (snd (advance m g st o)).
  split; [apply useFrame_mounted |].
  destruct (advance_object m g st o) as (Erx & Ery & Epx & Epy & Es).
  cbv zeta. rewrite Erx, Ery, Epx, Epy, Es.
  repeat split; apply lerp_contracts; lra.
Qed.

(** The clamp of the peace block lands in the position range. *)
Lemma clamp_in_range (lo hi v : R) :
  lo <= hi -> lo <= Rmax lo (Rmin hi v) <= hi.
Proof.
  intro H. unfold Rmax, Rmin.
  destruct (Rle_dec hi v); destruct (Rle_dec lo _); lra.
Qed.

(** A frame keeps [targetPosition] in its range. *)
Lemma advance_position_range (m : Model) (g : GestureState)
    (st : InteractionState) (o : Object3D.t) :
  inPositionRange (targetPosition st) ->
  inPositionRange (targetPosition (fst (advance m g st o))).
Proof.
  intros Hin.
  destruct (advance_targets m g st o) as (_ & -> & _).
  assert (H0 : inPositionRange (mkPoint 0 0))
    by (unfold inPositionRange; cbn [px py]; lra).
  assert (Hc : forall a b,
             inPositionRange (mkPoint (Rmax (-3) (Rmin 3 a))
                                      (Rmax (-2) (Rmin 2 b)))).
  { intros a b. unfold inPositionRange. cbn [px py].
    split; apply clamp_in_range; lra. }
  destruct (isFrozen _), (isReset g), (isPeace g); auto.
Qed.

(** A frame keeps [targetScale] in the range of the component. *)
Lemma advance_scale_range (m : Model) (g : GestureState)
    (st : InteractionState) (o : Object3D.t) :
  inScaleRange m (targetScale st) ->
  inScaleRange m (targetScale (fst (advance m g st o))).
Proof.
  unfold inScaleRange. intros Hin.
  destruct (advance_targets m g st o) as (_ & _ & ->).
  assert (Hb : scaleMin m <= 1 <= scaleMax m)
    by (unfold scaleMax; destruct m; cbn [scaleMin]; lra).
  unfold scaleMax in *.
  destruct (isFrozen _), (isReset g), (isZoomIn g), (isZoomOut g);
    unfold Rmax, Rmin; repeat destruct (Rle_dec _ _); lra.
Qed.

(** C9.  On a frame with peace set that ends not Frozen (the flag the update
    block tests), [targetPosition] becomes its value at that point (the
    stored one, or (0, 0) when the same frame resets) plus the position
    delta, each axis clamped on its own, x to [-3, 3] and y to [-2, 2]; over
    any sequence of frames an in-range [targetPosition] stays in range; and
    from an in-range start, one or more peace frames with a position delta
    of (+10, +10) leave [targetPosition] at exactly (3, 2). *)
Theorem C9_position_clamp :
  (forall (m : Model) (g : GestureState) (st : InteractionState)
          (o : Object3D.t),
      let st' := fst (useFrame m g st (Some o)) in
      let p0 := if isReset g then mkPoint 0 0 else targetPosition st in
      isPeace g = true -> isFrozen st' = false ->
      targetPosition st'
      = mkPoint (Rmax (-3) (Rmin 3 (px p0 + px (position g))))
                (Rmax (-2) (Rmin 2 (py p0 + py (position g)))))
  /\ (forall (m : Model) (gs : list GestureState) (st : InteractionState)
             (obj : option Object3D.t),
         inPositionRange (targetPosition st) ->
         inPositionRange (targetPosition (fst (run m gs st obj))))
  /\ (forall (m : Model) (g : GestureState) (n : nat) (st : InteractionState)
             (o : Object3D.t),
         inPositionRange (targetPosition st) ->
         isPeace g = true -> isFist g = false ->
         position g = mkPoint 10 10 ->
         targetPosition (fst (run m (repeat g (S n)) st (Some o)))
         = mkPoint 3 2).
Proof.
  split; [| split].
  - intros m g st o st' p0 Hpeace Hactive. unfold st' in *.
    rewrite useFrame_mounted in *. cbn [fst] in *.
    destruct (advance_targets m g st o) as (_ & -> & _).
    rewrite Hactive, Hpeace. reflexivity.
  - intros m gs st obj. destruct obj as [o |];
      [| rewrite run_unmounted; trivial].
    revert st o. induction gs as [| g gs IH]; intros st o Hin.
    + exact Hin.
    + rewrite run_cons_mounted. apply IH. apply advance_position_range, Hin.
  - intros m g n st o Hin Hpeace Hfist Hpush.
    assert (Hstep : forall st1 o1,
               inPositionRange (targetPosition st1) ->
               targetPosition (fst (advance m g st1 o1)) = mkPoint 3 2).
    { intros st1 o1 [Hx Hy].
      destruct (advance_targets m g st1 o1) as (_ & -> & _).
      rewrite advance_isFrozen, Hfist, Hpeace, Hpush.
      rewrite !orb_true_r.
      assert (E : forall a b, -3 <= a <= 3 -> -2 <= b <= 2 ->
                 mkPoint (Rmax (-3) (Rmin 3 (a + 10)))
                         (Rmax (-2) (Rmin 2 (b + 10))) = mkPoint 3 2).
      { intros a b Ha Hb. f_equal; unfold Rmax, Rmin;
          repeat destruct (Rle_dec _ _); lra. }
      destruct (isReset g); cbn [px py]; apply E; lra. }
    revert st o Hin. induction n as [| n IH]; intros st o Hin.
    + cbn [repeat]. rewrite run_cons_mounted. cbn [run fst].
      apply Hstep, Hin.
    + change (repeat g (S (S n))) with (g :: repeat g (S n)).
      rewrite run_cons_mounted. apply IH.
      rewrite (Hstep st o Hin). unfold inPositionRange. cbn [px py]. lra.
Qed.

Lemma C9_position_clamp_witness :
  targetPosition (fst (useFrame CarModel peacePush initialState
                         (Some (initialObject CarModel))))
  = mkPoint (Rmax (-3) (Rmin 3 (0 + 10))) (Rmax (-2) (Rmin 2 (0 + 10)))
  /\ inPositionRange
       (targetPosition (fst (run CarModel [peacePush; noGesture] initialState
                               (Some (initialObject CarModel)))))
  /\ targetPosition (fst (run CarModel (repeat peacePush 3) initialState
                            (Some (initialObject CarModel))))
     = mkPoint 3 2.
Proof.
  assert (Hin : inPositionRange (targetPosition initialState))
    by (unfold inPositionRange, initialState; cbn [targetPosition px py]; lra).
  destruct C9_position_clamp as (Hstep & Hinv & Hpush).
  split; [| split].
  - apply (Hstep CarModel peacePush initialState (initialObject CarModel));
      reflexivity.
  - apply Hinv. exact Hin.
  - apply (Hpush CarModel peacePush 2%nat); try reflexivity. exact Hin.
Defined.

(** C10.  The range of [targetScale] is [0.2, 3] for the solar system and
    [0.3, 3] for the car, the chair and the interactive model.  The zoom-in
    line sets [targetScale] to min (3, targetScale + 0.02), the zoom-out line
    to max (scaleMin, targetScale - 0.02), and the reset block to 1; the
    other blocks of the callback leave it alone, and so does a frame with
    none of zoom in, zoom out and reset set.  So every frame, and every
    sequence of frames, keeps an in-range [targetScale] in range. *)
Theorem C10_scale_range :
  (scaleMin SolarSystem = 0.2 /\ scaleMin CarModel = 0.3
   /\ scaleMin ChairModel = 0.3 /\ scaleMin InteractiveModel = 0.3
   /\ forall m, scaleMax m = 3)
  /\ (forall (m : Model) (g : GestureState) (st : InteractionState)
             (o : Object3D.t),
         (isZoomIn g = true ->
          targetScale (zoomInTarget m g st)
          = Rmin (scaleMax m) (targetScale st + 0.02))
         /\ (isZoomOut g = true ->
             targetScale (zoomOutTarget m g st)
             = Rmax (scaleMin m) (targetScale st - 0.02))
         /\ (isReset g = true -> targetScale (resetTargets g st) = 1)
         /\ (isZoomIn g = false -> zoomInTarget m g st = st)
         /\ (isZoomOut g = false -> zoomOutTarget m g st = st)
         /\ (isReset g = false -> resetTargets g st = st)
         /\ targetScale (freezeTransition g st) = targetScale st
         /\ targetScale (rotateTarget g st) = targetScale st
         /\ targetScale (moveTarget g st) = targetScale st
         /\ targetScale (fst (smooth m st o)) = targetScale st)
  /\ (forall (m : Model) (g : GestureState) (st : InteractionState)
             (o : Object3D.t),
         let st' := fst (useFrame m g st (Some o)) in
         (isFrozen st' = false -> isReset g = false ->
          isZoomIn g = true -> isZoomOut g = false ->
          targetScale st' = Rmin (scaleMax m) (targetScale st + 0.02))
         /\ (isFrozen st' = false -> isReset g = false ->
             isZoomIn g = false -> isZoomOut g = true ->
             targetScale st' = Rmax (scaleMin m) (targetScale st - 0.02))
         /\ (isReset g = true -> isZoomIn g = false -> isZoomOut g = false ->
             targetScale st' = 1)
         /\ (isReset g = false -> isZoomIn g = false -> isZoomOut g = false ->
             targetScale st' = targetScale st))
  /\ (forall (m : Model) (g : GestureState) (st : InteractionState)
             (obj : option Object3D.t),
         inScaleRange m (targetScale st) ->
         inScaleRange m (targetScale (fst (useFrame m g st obj))))
  /\ (forall (m : Model) (gs : list GestureState) (st : InteractionState)
             (obj : option Object3D.t),
         inScaleRange m (targetScale st) ->
         inScaleRange m (targetScale (fst (run m gs st obj)))).
Proof.
  split; [| split; [| split; [| split]]].
  - repeat split.
  - intros m g st o.
    unfold zoomInTarget, zoomOutTarget, resetTargets, freezeTransition,
      rotateTarget, moveTarget.
    destruct (smooth_refs m st o) as (_ & _ & Hs & _).
    repeat split; try (intros ->; reflexivity); try exact Hs.
    + destruct (isOpenHand g); reflexivity.
    + destruct (isPeace g); reflexivity.
  - intros m g st o st'. unfold st'. rewrite useFrame_mounted. cbn [fst].
    destruct (advance_targets m g st o) as (_ & _ & ->).
    repeat split.
    + intros -> -> -> ->. reflexivity.
    + intros -> -> -> ->. reflexivity.
    + intros -> -> ->. destruct (isFrozen _); reflexivity.
    + intros -> -> ->. destruct (isFrozen _); reflexivity.
  - intros m g st [o |] Hin; [| exact Hin].
    rewrite useFrame_mounted. apply advance_scale_range, Hin.
  - intros m gs st obj. destruct obj as [o |];
      [| rewrite run_unmounted; trivial].
    revert st o. induction gs as [| g gs IH]; intros st o Hin.
    + exact Hin.
    + rewrite run_cons_mounted. apply IH. apply advance_scale_range, Hin.
Qed.

Lemma C10_scale_range_witness :
  targetScale (fst (useFrame SolarSystem (flags true false false false false false)
                      initialState (Some (initialObject SolarSystem))))
  = Rmin (scaleMax SolarSystem) (1 + 0.02)
  /\ targetScale (fst (useFrame SolarSystem
                         (flags false true false false false false)
                         initialState (Some (initialObject SolarSystem))))
     = Rmax (scaleMin SolarSystem) (1 - 0.02)
  /\ inScaleRange SolarSystem
       (targetScale
          (fst (run SolarSystem
                  (repeat (flags false true false false false false) 50)
                  initialState (Some (initialObject SolarSystem))))).
Proof.
  destruct C10_scale_range as (_ & _ & Hframe & _ & Hrun).
  split; [| split].
  - apply (Hframe SolarSystem (flags true false false false false false)
             initialState (initialObject SolarSystem)); reflexivity.
  - apply (Hframe SolarSystem (flags false true false false false false)
             initialState (initialObject SolarSystem)); reflexivity.
  - apply Hrun. unfold inScaleRange, initialState, scaleMin, scaleMax.
    cbn [targetScale]. lra.
Defined.

(** ** The classifier: further properties *)

(** X1.  [calculateGesture] throws (a property of [undefined] is read)
    exactly on hands of fewer than 21 landmarks; landmarks past the 21st are
    never read. *)
Theorem X1_calculateGesture_throws_iff_short
    (h : list HandLandmark) (prev : option Point2D) :
  (calculateGesture h prev = None <-> (length h < 21)%nat)
  /\ (forall extra : list HandLandmark,
         length h = 21%nat ->
         calculateGesture (h ++ extra) prev = calculateGesture h prev).
Proof.
  split.
  - split.
    + intro Hnone.
      destruct (Nat.lt_ge_cases (length h) 21) as [Hlt | Hge]; [exact Hlt |].
      exfalso.
      do 21 (destruct h as [| ? h]; [cbn [length] in Hge; lia |]).
      discriminate Hnone.
    + intro Hlt.
      do 21 (destruct h as [| ? h]; [reflexivity |]).
      cbn [length] in Hlt. lia.
  - intros extra H. spell_hand h H. reflexivity.
Qed.

Lemma X1_calculateGesture_throws_iff_short_witness :
  calculateGesture (firstn 20 openHandPose) None = None
  /\ calculateGesture (openHandPose ++ fistPose) None
     = calculateGesture openHandPose None.
Proof.
  destruct (X1_calculateGesture_throws_iff_short (firstn 20 openHandPose) None)
    as ((_ & Hshort) & _).
  destruct (X1_calculateGesture_throws_iff_short openHandPose None)
    as (_ & Hextra).
  split.
  - apply Hshort. cbn. lia.
  - apply Hextra. reflexivity.
Defined.

(** X2.  With a hand of 21 landmarks and palm point [cur]: when a previous
    palm position [q] exists and peace is set, the position delta is
    (-(cur.x - q.x) * 5, -(cur.y - q.y) * 5); when peace is not set, or no
    previous palm position exists, it is (0, 0). *)
Theorem X2_position_delta
    (h : list HandLandmark) (prev : option Point2D) :
  length h = 21%nat ->
  exists g cur,
    calculateGesture h prev = Some (g, Some cur)
    /\ palmPosition g = Some cur
    /\ (forall q, prev = Some q -> isPeace g = true ->
        position g
        = mkPoint (- ((px cur - px q) * 5)) (- ((py cur - py q) * 5)))
    /\ (isPeace g = false -> position g = mkPoint 0 0)
    /\ (prev = None -> position g = mkPoint 0 0).
Proof.
  intro H.
  destruct (calculateGesture_spelled h prev H)
    as (g & Hrun & Hpalm & _ & _ & _ & _ & _ & _ & _ & Hpos).
  exists g. eexists. split; [exact Hrun |]. split; [exact Hpalm |].
  rewrite Hpos. split; [| split].
  - intros q -> ->. reflexivity.
  - intros ->. destruct prev; reflexivity.
  - intros ->. reflexivity.
Qed.

Lemma X2_position_delta_witness :
  exists g cur,
    calculateGesture fistPose (Some (mkPoint 0.4 0.4)) = Some (g, Some cur)
    /\ palmPosition g = Some cur.
Proof.
  destruct (X2_position_delta fistPose (Some (mkPoint 0.4 0.4)) eq_refl)
    as (g & cur & Hrun & Hpalm & _).
  exists g, cur. split; assumption.
Defined.

(** X3.  A frame never carries both deltas: on a hand of 21 landmarks the
    rotation delta or the position delta is (0, 0), and the first frame
    after the hook mounts (no previous palm position) carries neither. *)
Theorem X3_one_delta_at_most
    (h : list HandLandmark) (prev : option Point2D) :
  length h = 21%nat ->
  exists g p,
    calculateGesture h prev = Some (g, p)
    /\ (rotation g = mkPoint 0 0 \/ position g = mkPoint 0 0)
    /\ (prev = None -> rotation g = mkPoint 0 0 /\ position g = mkPoint 0 0).
Proof.
  intro H.
  destruct (calculateGesture_spelled h prev H)
    as (g & Hrun & _ & _ & _ & Hoh & _ & Hpe & _ & Hrot & Hpos).
  exists g. eexists. split; [exact Hrun |].
  rewrite Hrot, Hpos. split.
  - destruct prev as [q |]; [| left; reflexivity].
    rewrite Hoh, Hpe.
    destruct (isFingerExtended (lm h 16) _ _ _).
    + right. rewrite !andb_false_r, ?andb_false_l.
      destruct (isFingerExtended (lm h 8) _ _ _),
        (isFingerExtended (lm h 12) _ _ _); reflexivity.
    + left. rewrite !andb_false_r, ?andb_false_l. reflexivity.
  - intros ->. split; reflexivity.
Qed.

Lemma X3_one_delta_at_most_witness :
  exists g p,
    calculateGesture openHandPose (Some (mkPoint 0.4 0.4)) = Some (g, p)
    /\ (rotation g = mkPoint 0 0 \/ position g = mkPoint 0 0).
Proof.
  destruct (X3_one_delta_at_most openHandPose (Some (mkPoint 0.4 0.4)) eq_refl)
    as (g & p & Hrun & Hone & _).
  exists g, p. split; assumption.
Defined.

(** The extension tests see differences of coordinates only. *)
Lemma isFingerExtended_translate (dx dy dz : R)
    (tip pip mcp wrist : HandLandmark) :
  let mv := fun l => mkLandmark (x l + dx) (y l + dy) (z l + dz) in
  isFingerExtended (mv tip) (mv pip) (mv mcp) (mv wrist)
  = isFingerExtended tip pip mcp wrist.
Proof.
  intro mv. unfold isFingerExtended, mv. cbn [x y].
  replace (x tip + dx - (x wrist + dx)) with (x tip - x wrist) by ring.
  replace (y tip + dy - (y wrist + dy)) with (y tip - y wrist) by ring.
  replace (x pip + dx - (x wrist + dx)) with (x pip - x wrist) by ring.
  replace (y pip + dy - (y wrist + dy)) with (y pip - y wrist) by ring.
  replace (x mcp + dx - (x wrist + dx)) with (x mcp - x wrist) by ring.
  replace (y mcp + dy - (y wrist + dy)) with (y mcp - y wrist) by ring.
  reflexivity.
Qed.

Lemma isThumbExtended_translate (dx dy dz : R)
    (thumbTip thumbIp thumbMcp wrist indexMcp : HandLandmark) :
  let mv := fun l => mkLandmark (x l + dx) (y l + dy) (z l + dz) in
  isThumbExtended (mv thumbTip) (mv thumbIp) (mv thumbMcp) (mv wrist)
    (mv indexMcp)
  = isThumbExtended thumbTip thumbIp thumbMcp wrist indexMcp.
Proof.
  intro mv. unfold isThumbExtended, mv. cbn [x y].
  replace (x thumbTip + dx - (x indexMcp + dx))
    with (x thumbTip - x indexMcp) by ring.
  replace (y thumbTip + dy - (y indexMcp + dy))
    with (y thumbTip - y indexMcp) by ring.
  reflexivity.
Qed.

(** X4.  The classification does not depend on where the hand is in the
    frame, nor on depth: moving every landmark of a 21-landmark hand by the
    same offsets leaves the six flags as they are and moves the palm point by
    the x and y offsets; if the previous palm position moves along, both
    deltas are unchanged too. *)
Theorem X4_translation_invariance
    (dx dy dz : R) (h : list HandLandmark) (prev : option Point2D) :
  length h = 21%nat ->
  let prev' :=
    option_map (fun q => mkPoint (px q + dx) (py q + dy)) prev in
  exists g g' cur,
    calculateGesture h prev = Some (g, Some cur)
    /\ calculateGesture (translate dx dy dz h) prev'
       = Some (g', Some (mkPoint (px cur + dx) (py cur + dy)))
    /\ isZoomIn g' = isZoomIn g /\ isZoomOut g' = isZoomOut g
    /\ isOpenHand g' = isOpenHand g /\ isFist g' = isFist g
    /\ isPeace g' = isPeace g /\ isReset g' = isReset g
    /\ rotation g' = rotation g /\ position g' = position g.
Proof.
  intros H prev'.
  assert (H' : length (translate dx dy dz h) = 21%nat)
    by (unfold translate; rewrite length_map; exact H).
  destruct (calculateGesture_spelled h prev H)
    as (g & Hrun & _ & Hzi & Hzo & Hoh & Hfi & Hpe & Hre & Hrot & Hpos).
  destruct (calculateGesture_spelled (translate dx dy dz h) prev' H')
    as (g' & Hrun' & _ & Hzi' & Hzo' & Hoh' & Hfi' & Hpe' & Hre' & Hrot'
        & Hpos').
  assert (Hlm : forall i, (i < 21)%nat ->
             lm (translate dx dy dz h) i
             = mkLandmark (x (lm h i) + dx) (y (lm h i) + dy)
                 (z (lm h i) + dz)).
  { intros i Hi. spell_hand h H. unfold lm, translate. cbn [map].
    do 21 (destruct i as [| i]; [reflexivity |]). lia. }
  repeat match goal with
         | K : context [lm (translate dx dy dz h) ?i] |- _ =>
             rewrite (Hlm i) in K by lia
         end.
  rewrite !isFingerExtended_translate in Hzi', Hzo', Hoh', Hfi',
    Hpe', Hre'.
  rewrite !isThumbExtended_translate in Hzi', Hzo', Hoh', Hfi', Hpe', Hre'.
  rewrite <- Hzi in Hzi'. rewrite <- Hzo in Hzo'. rewrite <- Hoh in Hoh'.
  rewrite <- Hfi in Hfi'. rewrite <- Hpe in Hpe'. rewrite <- Hre in Hre'.
  assert (Ep : forall a b c d e a' b' c' d' k : R,
             mkPoint ((a + e + (b + e) + (c + e) + (d + e)) / 4)
                     ((a' + k + (b' + k) + (c' + k) + (d' + k)) / 4)
             = mkPoint ((a + b + c + d) / 4 + e) ((a' + b' + c' + d') / 4 + k))
    by (intros; f_equal; field).
  cbn [x y] in Hrun', Hrot', Hpos'. rewrite Ep in Hrun', Hrot', Hpos'.
  exists g, g'. eexists.
  split; [exact Hrun |]. split; [exact Hrun' |].
  repeat (split; [assumption |]).
  rewrite Hrot, Hrot', Hpos, Hpos', Hoh', Hpe'. unfold prev'.
  destruct prev as [q |]; cbn [option_map px py]; [| split; reflexivity].
  split.
  - destruct (isOpenHand g); [f_equal; ring | reflexivity].
  - destruct (isPeace g); [f_equal; ring | reflexivity].
Qed.

Lemma X4_translation_invariance_witness :
  exists g g' cur,
    calculateGesture openHandPose None = Some (g, Some cur)
    /\ calculateGesture (translate 0.1 (-0.05) 1 openHandPose) None
       = Some (g', Some (mkPoint (px cur + 0.1) (py cur + -0.05)))
    /\ isOpenHand g' = isOpenHand g.
Proof.
  destruct (X4_translation_invariance 0.1 (-0.05) 1 openHandPose None eq_refl)
    as (g & g' & cur & Hrun & Hrun' & _ & _ & Hoh & _).
  exists g, g', cur. split; [exact Hrun |]. split; [exact Hrun' | exact Hoh].
Defined.

Lemma isFingerExtended_false_dist (tip pip mcp wrist : HandLandmark) :
  isFingerExtended tip pip mcp wrist = false <->
  dist tip wrist <= 0.95 * dist pip wrist \/ dist tip wrist <= dist mcp wrist.
Proof.
  rewrite <- not_true_iff_false, isFingerExtended_dist. split.
  - intro Hn.
    destruct (Rle_lt_dec (dist tip wrist) (0.95 * dist pip wrist));
      [left; assumption |].
    destruct (Rle_lt_dec (dist tip wrist) (dist mcp wrist));
      [right; assumption |].
    exfalso. apply Hn. split; lra.
  - intros [H | H] [H1 H2]; lra.
Qed.

Lemma isThumbExtended_false_dist
    (thumbTip thumbIp thumbMcp wrist indexMcp : HandLandmark) :
  isThumbExtended thumbTip thumbIp thumbMcp wrist indexMcp = false <->
  dist thumbTip indexMcp <= 0.12.
Proof.
  rewrite <- not_true_iff_false, isThumbExtended_dist. split; lra.
Qed.

(** X5.  On a hand of 21 landmarks on which each of the index, middle, ring
    and pinky tips is no farther from the wrist than 0.95 times the proximal
    joint's distance or no farther than the base joint's, and whose thumb
    tip is within 0.12 of the index base joint, the classifier reports fist
    and none of the other five gestures. *)
Theorem X5_fist_only
    (h : list HandLandmark) (prev : option Point2D) :
  length h = 21%nat ->
  (forall tip pip mcp : nat,
      In (tip, pip, mcp)
         [(8, 6, 5); (12, 10, 9); (16, 14, 13); (20, 18, 17)]%nat ->
      dist (lm h tip) (lm h 0) <= 0.95 * dist (lm h pip) (lm h 0)
      \/ dist (lm h tip) (lm h 0) <= dist (lm h mcp) (lm h 0)) ->
  dist (lm h 4) (lm h 5) <= 0.12 ->
  exists g p,
    calculateGesture h prev = Some (g, p)
    /\ isFist g = true
    /\ isZoomIn g = false /\ isZoomOut g = false /\ isOpenHand g = false
    /\ isPeace g = false /\ isReset g = false
    /\ rotation g = mkPoint 0 0 /\ position g = mkPoint 0 0.
Proof.
  intros H Hfingers Hthumb.
  destruct (calculateGesture_spelled h prev H)
    as (g & Hrun & _ & Hzi & Hzo & Hoh & Hfi & Hpe & Hre & Hrot & Hpos).
  assert (Hi : isFingerExtended (lm h 8) (lm h 6) (lm h 5) (lm h 0) = false)
    by (apply isFingerExtended_false_dist, Hfingers; cbn; auto).
  assert (Hm : isFingerExtended (lm h 12) (lm h 10) (lm h 9) (lm h 0) = false)
    by (apply isFingerExtended_false_dist, Hfingers; cbn; auto).
  assert (Hr : isFingerExtended (lm h 16) (lm h 14) (lm h 13) (lm h 0) = false)
    by (apply isFingerExtended_false_dist, Hfingers; cbn; auto).
  assert (Hp : isFingerExtended (lm h 20) (lm h 18) (lm h 17) (lm h 0) = false)
    by (apply isFingerExtended_false_dist, Hfingers; cbn; auto 6).
  assert (Ht : isThumbExtended (lm h 4) (lm h 3) (lm h 2) (lm h 0) (lm h 5)
               = false)
    by (apply isThumbExtended_false_dist; exact Hthumb).
  rewrite Ht, Hi, Hm, Hr, Hp in Hzi, Hzo, Hoh, Hfi, Hpe, Hre.
  cbn [andb negb] in Hzi, Hzo, Hoh, Hfi, Hpe, Hre.
  rewrite Hoh in Hrot. rewrite Hpe in Hpos.
  exists g. eexists. split; [exact Hrun |].
  repeat (split; [assumption |]).
  split; [rewrite Hrot | rewrite Hpos]; destruct prev; reflexivity.
Qed.

Lemma X5_fist_only_witness :
  exists g p,
    calculateGesture fistPose (Some (mkPoint 0.45 0.42)) = Some (g, p)
    /\ isFist g = true.
Proof.
  assert (Hle : forall a b c d : HandLandmark,
             dist2 a b <= dist2 c d -> dist a b <= dist c d)
    by (intros a b c d K; unfold dist; apply sqrt_le_1_alt; exact K).
  destruct (X5_fist_only fistPose (Some (mkPoint 0.45 0.42)) eq_refl)
    as (g & p & Hrun & Hfist & _).
  - intros tip pip mcp Hin. cbn [In] in Hin. right.
    repeat (destruct Hin as [Hin | Hin];
            [injection Hin as <- <- <-; apply Hle;
             unfold dist2, lm, fistPose; cbn [nth x y]; lra |]).
    contradiction.
  - apply (isThumbExtended_false_dist _ (lm fistPose 3) (lm fistPose 2)
             (lm fistPose 0)).
    apply not_true_iff_false. rewrite isThumbExtended_dist2.
    unfold dist2, lm, fistPose; cbn [nth x y]. lra.
  - exists g, p. split; assumption.
Defined.

(** ** [processResults]: further properties *)

(** X6.  With the canvas mounted and a first detected hand of 21 landmarks,
    [processResults] stores that hand, the classifier's gesture for it, and
    as previous palm position the palm point of that gesture; any further
    hands in the result are ignored.  Without the canvas it changes nothing,
    whatever was detected. *)
Theorem X6_processResults_hand_frame
    (h : list HandLandmark) (others : list (list HandLandmark))
    (st : TrackingState) :
  length h = 21%nat ->
  (exists st' g cur,
      processResults true (Some (h :: others)) st = Some st'
      /\ calculateGesture h (prevPalmPosition st) = Some (g, Some cur)
      /\ landmarks st' = Some h
      /\ gesture st' = g
      /\ palmPosition g = Some cur
      /\ prevPalmPosition st' = Some cur
      /\ processResults true (Some [h]) st = Some st')
  /\ (forall results, processResults false results st = Some st).
Proof.
  intro H. split; [| reflexivity].
  destruct (calculateGesture_spelled h (prevPalmPosition st) H)
    as (g & Hrun & Hpalm & _).
  eexists. exists g. eexists.
  unfold processResults. rewrite Hrun. cbn [bind fst snd].
  split; [reflexivity |]. split; [reflexivity |].
  cbn [landmarks gesture prevPalmPosition].
  repeat split. exact Hpalm.
Qed.

Lemma X6_processResults_hand_frame_witness :
  exists st' g cur,
    processResults true (Some [openHandPose; fistPose])
      (mkTracking None noGesture None) = Some st'
    /\ calculateGesture openHandPose None = Some (g, Some cur)
    /\ landmarks st' = Some openHandPose
    /\ prevPalmPosition st' = Some cur.
Proof.
  destruct (X6_processResults_hand_frame openHandPose [fistPose]
              (mkTracking None noGesture None) eq_refl)
    as ((st' & g & cur & Hrun & Hcalc & Hlm & _ & _ & Hprev & _) & _).
  exists st', g, cur.
  split; [exact Hrun |]. split; [exact Hcalc |].
  split; [exact Hlm | exact Hprev].
Defined.

(** X7.  A frame without a hand is absorbed by the frame that follows:
    whatever the next detection result is, processing it after a hand-less
    frame gives the state that processing it directly would have given.  So
    the deltas of the first frame after a drop-out are measured from the
    palm position of the last frame that had a hand. *)
Theorem X7_dropped_frame_is_transparent
    (st : TrackingState) (next : option (list (list HandLandmark))) :
  forall absent, In absent [None; Some []] ->
  bind (processResults true absent st) (processResults true next)
  = processResults true next st.
Proof.
  intros absent [<- | [<- | []]]; reflexivity.
Qed.

Lemma X7_dropped_frame_is_transparent_witness :
  bind (processResults true (Some [])
          (mkTracking (Some fistPose) noGesture (Some (mkPoint 0.4 0.4))))
       (processResults true (Some [openHandPose]))
  = processResults true (Some [openHandPose])
      (mkTracking (Some fistPose) noGesture (Some (mkPoint 0.4 0.4))).
Proof.
  apply (X7_dropped_frame_is_transparent
           (mkTracking (Some fistPose) noGesture (Some (mkPoint 0.4 0.4)))
           (Some [openHandPose]) (Some [])).
  right. left. reflexivity.
Defined.

(** ** The overlay and the indicator *)

(** X8.  The four index classes of the overlay split the 21 landmark indices:
    every index below 21 is in exactly one of fingertip, knuckle, joint and
    wrist, so the order of the tests in the dot styling does not matter (a
    fingertip gets radius 8, a knuckle 6, the wrist 10, all in the primary
    colour, a joint radius 4 in the secondary colour); an index from 21 on is
    in none and gets the default dot, radius 4 in the secondary colour. *)
Theorem X8_point_classes_partition
    (primaryColor secondaryColor : String.string) (index : nat) :
  ((index < 21)%nat ->
   length (filter (fun b : bool => b)
             [isFingertip index; isKnuckle index; isJoint index;
              isWrist index]) = 1%nat
   /\ (isFingertip index = true ->
       pointStyle primaryColor secondaryColor index = (8%Z, primaryColor))
   /\ (isKnuckle index = true ->
       pointStyle primaryColor secondaryColor index = (6%Z, primaryColor))
   /\ (isWrist index = true ->
       pointStyle primaryColor secondaryColor index = (10%Z, primaryColor))
   /\ (isJoint index = true ->
       pointStyle primaryColor secondaryColor index = (4%Z, secondaryColor)))
  /\ ((21 <= index)%nat ->
      isFingertip index = false /\ isKnuckle index = false
      /\ isJoint index = false /\ isWrist index = false
      /\ pointStyle primaryColor secondaryColor index = (4%Z, secondaryColor)).
Proof.
  split.
  - intro Hlt.
    do 21 (destruct index as [| index];
           [cbn; repeat split; intros K; try discriminate K; reflexivity |]).
    lia.
  - intro Hge.
    do 21 (destruct index as [| index]; [lia |]).
    repeat split.
Qed.

Lemma X8_point_classes_partition_witness :
  pointStyle "#00ffff"%string "#0088aa"%string 8 = (8%Z, "#00ffff"%string)
  /\ pointStyle "#00ffff"%string "#0088aa"%string 21 = (4%Z, "#0088aa"%string).
Proof.
  destruct (X8_point_classes_partition "#00ffff"%string "#0088aa"%string 8)
    as (Hin & _).
  destruct (X8_point_classes_partition "#00ffff"%string "#0088aa"%string 21)
    as (_ & Hout).
  split.
  - apply Hin; [lia | reflexivity].
  - apply Hout. lia.
Defined.

(** X9.  The indicator renders nothing exactly when tracking is off or no
    gesture flag is set.  While tracking, on a gesture with at most one flag
    set (every gesture the classifier returns), the badge names the flag that
    is set. *)
Theorem X9_indicator_names_the_flag (g : GestureState) :
  (forall isTracking,
      GestureIndicator g isTracking = None
      <-> isTracking = false \/ flagCount g = 0%nat)
  /\ ((flagCount g <= 1)%nat ->
      forall b, GestureIndicator g true = Some b ->
      (label b = "ZOOM IN"%string <-> isZoomIn g = true)
      /\ (label b = "ZOOM OUT"%string <-> isZoomOut g = true)
      /\ (label b = "POSITION"%string <-> isPeace g = true)
      /\ (label b = "ROTATE"%string <-> isOpenHand g = true)
      /\ (label b = "FREEZE"%string <-> isFist g = true)
      /\ (label b = "RESET"%string <-> isReset g = true)).
Proof.
  destruct g as [zi zo oh fi pe re pp rot pos].
  unfold GestureIndicator, flagCount.
  cbn [isZoomIn isZoomOut isOpenHand isFist isPeace isReset].
  split.
  - intros [|]; cbn [negb].
    + destruct zi, zo, oh, fi, pe, re; cbn;
        (split;
         [ intro K; try discriminate K; right; reflexivity
         | intros [K | K]; try discriminate K; reflexivity ]).
    + split; [left | ]; reflexivity.
  - cbn [negb].
    destruct zi, zo, oh, fi, pe, re; cbn; intros Hle b Hb;
      try lia; try discriminate Hb;
      injection Hb as <-; cbn [label];
      repeat split; intro K; try discriminate K; reflexivity.
Qed.

Lemma X9_indicator_names_the_flag_witness :
  GestureIndicator noGesture true = None
  /\ forall b,
       GestureIndicator (flags false false false true false false) true
       = Some b ->
       label b = "FREEZE"%string.
Proof.
  split.
  - apply (proj1 (X9_indicator_names_the_flag noGesture) true).
    right. reflexivity.
  - intros b Hb.
    apply (proj2 (X9_indicator_names_the_flag
                    (flags false false false true false false))
             ltac:(cbn; lia) b Hb).
    reflexivity.
Defined.

(** X10.  On a gesture with at most one flag set the overlay and the
    indicator show the same gesture: the overlay's colour pair is the one of
    the gesture the badge names, and the default pair, which is also the
    open-hand pair, when there is no badge.  With two flags set they can
    differ, because the two chains test the flags in different orders: for
    fist with peace the badge says POSITION and the overlay has the fist
    colours. *)
Theorem X10_overlay_agrees_with_indicator :
  (forall g : GestureState,
      (flagCount g <= 1)%nat ->
      match GestureIndicator g true with
      | None => overlayColors g = ("#00ffff", "#0088aa")%string
      | Some b =>
          (label b = "ZOOM IN"%string ->
           overlayColors g = ("#00ff88", "#00aa55")%string)
          /\ (label b = "ZOOM OUT"%string ->
              overlayColors g = ("#ff8800", "#aa5500")%string)
          /\ (label b = "FREEZE"%string ->
              overlayColors g = ("#8844ff", "#5522aa")%string)
          /\ (label b = "POSITION"%string ->
              overlayColors g = ("#ff44aa", "#aa2277")%string)
          /\ (label b = "RESET"%string ->
              overlayColors g = ("#ff0066", "#aa0044")%string)
          /\ (label b = "ROTATE"%string ->
              overlayColors g = ("#00ffff", "#0088aa")%string)
      end)
  /\ (let g := flags false false false true true false in
      option_map label (GestureIndicator g true) = Some "POSITION"%string
      /\ overlayColors g = ("#8844ff", "#5522aa")%string).
Proof.
  split; [| split; reflexivity].
  intros [zi zo oh fi pe re pp rot pos].
  unfold GestureIndicator, overlayColors, flagCount.
  cbn [isZoomIn isZoomOut isOpenHand isFist isPeace isReset negb].
  destruct zi, zo, oh, fi, pe, re; cbn; intros Hle; try lia;
    try reflexivity;
    repeat split; intro K; try discriminate K; reflexivity.
Qed.

Lemma X10_overlay_agrees_with_indicator_witness :
  match GestureIndicator (flags true false false false false false) true with
  | None => True
  | Some b =>
      label b = "ZOOM IN"%string ->
      overlayColors (flags true false false false false false)
      = ("#00ff88", "#00aa55")%string
  end.
Proof.
  pose proof (proj1 X10_overlay_agrees_with_indicator
                (flags true false false false false false)
                ltac:(cbn; lia)) as H.
  cbn in H. cbn. apply H.
Defined.

(** ** The sound cues *)

Lemma sound_eqb_eq (a b : Sound.SoundType) : Sound.eqb a b = true <-> a = b.
Proof. destruct a, b; split; intro K; try reflexivity; discriminate K. Qed.

(** One call of [playSound]: time stamps never go back, and a call that
    plays is at least its debounce after the stamp of its type, which it
    then overwrites. *)
Lemma playSound_step (now : Z) (type : Sound.SoundType) (debounceMs : Z)
    (s : Sound.State) :
  (0 <= debounceMs)%Z ->
  let r := Sound.playSound now type debounceMs s in
  (forall t, (Sound.lastPlayed s t <= Sound.lastPlayed (fst r) t)%Z)
  /\ (snd r = true ->
      (Sound.lastPlayed s type + debounceMs <= now)%Z
      /\ Sound.lastPlayed (fst r) type = now
      /\ Sound.audioRefs s type = true)
  /\ (snd r = false -> fst r = s)
  /\ Sound.audioRefs (fst r) = Sound.audioRefs s.
Proof.
  intros Hd r. unfold r, Sound.playSound.
  destruct (Z.ltb_spec (now - Sound.lastPlayed s type) debounceMs) as [Hlt | Hge];
    [cbn; repeat split; try lia; intro K; discriminate K |].
  destruct (Sound.audioRefs s type) eqn:Ha;
    [| cbn; repeat split; try lia; intro K; discriminate K].
  cbn [fst snd Sound.lastPlayed Sound.audioRefs]. repeat split.
  - intro t. destruct (Sound.eqb t type) eqn:E; [| lia].
    apply sound_eqb_eq in E. subst t. lia.
  - lia.
  - assert (E : Sound.eqb type type = true) by (apply sound_eqb_eq; reflexivity).
    rewrite E. reflexivity.
  - intro K. discriminate K.
Qed.

(** Over a sequence of calls with non-negative debounces, every call in the
    log is at least its debounce after the stamp its type had at the
    start. *)
Lemma playAll_log_after_start (calls : list Sound.Call) :
  (forall c, In c calls -> (0 <= snd c)%Z) ->
  forall s : Sound.State,
    (forall t, (Sound.lastPlayed s t
                <= Sound.lastPlayed (fst (Sound.playAll calls s)) t)%Z)
    /\ (forall now type d,
           In (now, type, d) (snd (Sound.playAll calls s)) ->
           (Sound.lastPlayed s type + d <= now)%Z
           /\ Sound.audioRefs s type = true).
Proof.
  induction calls as [| [[now0 type0] d0] rest IH]; intros Hd s.
  - cbn. split; [intro; lia | intros ? ? ? []].
  - assert (Hd0 : (0 <= d0)%Z) by (apply (Hd (now0, type0, d0)); left; reflexivity).
    assert (Hrest : forall c, In c rest -> (0 <= snd c)%Z)
      by (intros c Hc; apply Hd; right; exact Hc).
    destruct (playSound_step now0 type0 d0 s Hd0) as (Hmono & Hplay & Hskip & Hrefs).
    cbn [Sound.playAll].
    destruct (Sound.playSound now0 type0 d0 s) as [s1 played] eqn:E1.
    cbn [fst snd] in Hmono, Hplay, Hskip, Hrefs.
    destruct (IH Hrest s1) as (Hmono' & Hlog').
    destruct (Sound.playAll rest s1) as [s2 log] eqn:E2.
    cbn [fst snd] in *.
    split.
    + intro t. specialize (Hmono t). specialize (Hmono' t). lia.
    + intros now type d Hin.
      assert (Hlater : In (now, type, d) log ->
                       (Sound.lastPlayed s type + d <= now)%Z
                       /\ Sound.audioRefs s type = true).
      { intro K. destruct (Hlog' now type d K) as (Hle & Ha).
        rewrite Hrefs in Ha. specialize (Hmono type). split; [lia | exact Ha]. }
      destruct played; [| exact (Hlater Hin)].
      destruct Hin as [Heq | Hin]; [| exact (Hlater Hin)].
      injection Heq as <- <- <-.
      destruct (Hplay eq_refl) as (Hle & _ & Ha). split; assumption.
Qed.

(** X11.  The debounce of [playSound]: over any sequence of calls with
    non-negative debounces, whatever the clock values, two calls of the same
    type that both play are at least the debounce of the later one apart;
    and a type whose audio element is missing never plays. *)
Theorem X11_played_sounds_are_debounced
    (calls : list Sound.Call) (s : Sound.State) :
  (forall c, In c calls -> (0 <= snd c)%Z) ->
  (forall l1 l2 l3 t1 t2 type d1 d2,
      snd (Sound.playAll calls s)
      = l1 ++ (t1, type, d1) :: l2 ++ (t2, type, d2) :: l3 ->
      (d2 <= t2 - t1)%Z)
  /\ (forall now type d,
         In (now, type, d) (snd (Sound.playAll calls s)) ->
         Sound.audioRefs s type = true).
Proof.
  intro Hd. split.
  - revert s. induction calls as [| [[now0 type0] d0] rest IH]; intros s.
    + intros l1 l2 l3 t1 t2 type d1 d2 E. cbn in E.
      destruct l1; discriminate E.
    + assert (Hd0 : (0 <= d0)%Z)
        by (apply (Hd (now0, type0, d0)); left; reflexivity).
      assert (Hrest : forall c, In c rest -> (0 <= snd c)%Z)
        by (intros c Hc; apply Hd; right; exact Hc).
      destruct (playSound_step now0 type0 d0 s Hd0) as (_ & Hplay & _ & _).
      cbn [Sound.playAll].
      destruct (Sound.playSound now0 type0 d0 s) as [s1 played] eqn:E1.
      cbn [fst snd] in Hplay.
      pose proof (IH Hrest s1) as IHs.
      destruct (playAll_log_after_start rest Hrest s1) as (_ & Hlog).
      destruct (Sound.playAll rest s1) as [s2 log] eqn:E2.
      cbn [fst snd] in *.
      intros l1 l2 l3 t1 t2 type d1 d2 E.
      destruct played; [| exact (IHs _ _ _ _ _ _ _ _ E)].
      destruct l1 as [| c l1]; cbn [app] in E.
      * injection E as <- <- <- Elog.
        destruct (Hplay eq_refl) as (_ & Hstamp & _).
        destruct (Hlog t2 type0 d2) as (Hle & _).
        { rewrite Elog. apply in_or_app. right. left. reflexivity. }
        lia.
      * injection E as _ Elog. exact (IHs _ _ _ _ _ _ _ _ Elog).
  - intros now type d Hin.
    apply (playAll_log_after_start calls Hd s) in Hin. apply Hin.
Qed.

Lemma X11_played_sounds_are_debounced_witness :
  snd (Sound.playAll
         [(1000, Sound.zoom, 500); (1200, Sound.zoom, 500);
          (1600, Sound.zoom, 500)]%Z
         (Sound.preloaded Sound.initial))
  = [(1000, Sound.zoom, 500); (1600, Sound.zoom, 500)]%Z
  /\ (500 <= 1600 - 1000)%Z.
Proof.
  assert (E : snd (Sound.playAll
                     [(1000, Sound.zoom, 500); (1200, Sound.zoom, 500);
                      (1600, Sound.zoom, 500)]%Z
                     (Sound.preloaded Sound.initial))
              = [] ++ (1000, Sound.zoom, 500)%Z
                   :: [] ++ (1600, Sound.zoom, 500)%Z :: [])
    by reflexivity.
  split; [exact E |].
  refine (proj1 (X11_played_sounds_are_debounced _ _ _) _ _ _ _ _ _ _ _ E).
  intros c [<- | [<- | [<- | []]]]; cbn; lia.
Defined.

(** X12.  The sound effect of the page fires on rising edges only: its
    first run and a run with the gesture it saw last make no [playSound]
    call; in general it makes no call exactly when every flag set now was
    already set at the previous run; a gesture with at most one flag set
    triggers at most one call; and the ref always ends up holding the
    current gesture. *)
Theorem X12_sounds_on_rising_edges (prev g : GestureState) :
  gestureSounds None g = ([], Some g)
  /\ gestureSounds (Some g) g = ([], Some g)
  /\ snd (gestureSounds (Some prev) g) = Some g
  /\ (fst (gestureSounds (Some prev) g) = []
      <-> (isZoomIn g = true -> isZoomIn prev = true)
          /\ (isZoomOut g = true -> isZoomOut prev = true)
          /\ (isOpenHand g = true -> isOpenHand prev = true)
          /\ (isPeace g = true -> isPeace prev = true)
          /\ (isFist g = true -> isFist prev = true)
          /\ (isReset g = true -> isReset prev = true))
  /\ ((flagCount g <= 1)%nat ->
      (length (fst (gestureSounds (Some prev) g)) <= 1)%nat).
Proof.
  split; [reflexivity |].
  split.
  { unfold gestureSounds.
    destruct (isZoomIn g), (isZoomOut g), (isOpenHand g), (isPeace g),
      (isFist g), (isReset g); reflexivity. }
  split; [reflexivity |].
  assert (Hrise : forall p c : bool,
             negb p && c = false <-> (c = true -> p = true)).
  { intros [|] [|]; cbn; split; intros K; try reflexivity; try discriminate K;
      try (intro; reflexivity); try (intro K'; discriminate K');
      specialize (K eq_refl); discriminate K. }
  unfold gestureSounds, flagCount. cbn [fst].
  rewrite <- !Hrise.
  split.
  - destruct (negb (isZoomIn prev) && isZoomIn g),
      (negb (isZoomOut prev) && isZoomOut g),
      (negb (isOpenHand prev) && isOpenHand g),
      (negb (isPeace prev) && isPeace g),
      (negb (isFist prev) && isFist g),
      (negb (isReset prev) && isReset g); cbn;
      (split; [intro K; try discriminate K; repeat split
              | intros (K1 & K2 & K3 & K4 & K5 & K6);
                try discriminate K1; try discriminate K2;
                try discriminate K3; try discriminate K4;
                try discriminate K5; try discriminate K6; reflexivity]).
  - destruct (isZoomIn g), (isZoomOut g), (isOpenHand g), (isPeace g),
      (isFist g), (isReset g); cbn; intro Hle; try lia;
      rewrite ?andb_false_r; cbn;
      repeat match goal with
             | |- context [negb ?b && true] => destruct b; cbn
             end; lia.
Qed.

Lemma X12_sounds_on_rising_edges_witness :
  fst (gestureSounds (Some (flags false false false true false false))
         (flags false false false true false false)) = []
  /\ (length (fst (gestureSounds (Some noGesture)
                     (flags true false false false false false))) <= 1)%nat.
Proof.
  destruct (X12_sounds_on_rising_edges
              (flags false false false true false false)
              (flags false false false true false false))
    as (_ & _ & _ & Hiff & _).
  destruct (X12_sounds_on_rising_edges noGesture
              (flags true false false false false false))
    as (_ & _ & _ & _ & Hone).
  split.
  - apply Hiff. repeat split; intro K; try discriminate K; reflexivity.
  - apply Hone. cbn. lia.
Defined.

(** ** The state machine: further properties *)

(** X13.  A frame that ends Frozen changes no target, whatever other flags
    and deltas it carries; fist without reset always ends Frozen; and a frame
    with no flag set changes neither the targets nor the frozen flag. *)
Theorem X13_frozen_blocks_targets
    (m : Model) (g : GestureState) (st : InteractionState) (o : Object3D.t) :
  let st' := fst (useFrame m g st (Some o)) in
  (isFrozen st' = true ->
   targetRotation st' = targetRotation st
   /\ targetPosition st' = targetPosition st
   /\ targetScale st' = targetScale st)
  /\ (isFist g = true -> isReset g = false -> isFrozen st' = true)
  /\ (flagCount g = 0%nat ->
      targetRotation st' = targetRotation st
      /\ targetPosition st' = targetPosition st
      /\ targetScale st' = targetScale st
      /\ isFrozen st' = isFrozen st).
Proof.
  intro st'. unfold st'. rewrite useFrame_mounted. cbn [fst].
  destruct (advance_targets m g st o) as (Er & Ep & Es).
  rewrite Er, Ep, Es, advance_isFrozen. clear Er Ep Es.
  split; [| split].
  - destruct (isReset g); [intro K; discriminate K |].
    intros ->. repeat split.
  - intros -> ->. reflexivity.
  - unfold flagCount.
    destruct (isZoomIn g), (isZoomOut g), (isOpenHand g), (isFist g),
      (isPeace g), (isReset g); cbn; intro K; try discriminate K.
    destruct (isFrozen st); repeat split.
Qed.

Lemma X13_frozen_blocks_targets_witness :
  let st' :=
    fst (useFrame CarModel
           (mkGesture true false true true true false None (mkPoint 1 1)
              (mkPoint 2 2))
           initialState (Some (initialObject CarModel))) in
  isFrozen st' = true
  /\ targetRotation st' = targetRotation initialState
  /\ targetPosition st' = targetPosition initialState
  /\ targetScale st' = targetScale initialState.
Proof.
  intro st'.
  destruct (X13_frozen_blocks_targets CarModel
              (mkGesture true false true true true false None (mkPoint 1 1)
                 (mkPoint 2 2))
              initialState (initialObject CarModel)) as (Hkeep & Hfist & _).
  pose proof (Hfist eq_refl eq_refl) as Hfrozen.
  split; [exact Hfrozen | exact (Hkeep Hfrozen)].
Defined.

(** X14.  Rotation accumulates without a bound: after [n] frames with open
    hand set (and neither fist nor reset) and rotation delta [d], the
    rotation target is its starting value plus [n] times [d] on each axis. *)
Theorem X14_rotation_accumulates
    (m : Model) (g : GestureState) (n : nat) (st : InteractionState)
    (o : Object3D.t) :
  isOpenHand g = true -> isFist g = false -> isReset g = false ->
  targetRotation (fst (run m (repeat g n) st (Some o)))
  = mkPoint (px (targetRotation st) + INR n * px (rotation g))
            (py (targetRotation st) + INR n * py (rotation g)).
Proof.
  intros Hoh Hfist Hreset. revert st o.
  induction n as [| n IH]; intros st o.
  - cbn [repeat run fst INR]. destruct (targetRotation st) as [rx ry].
    cbn [px py]. f_equal; ring.
  - cbn [repeat]. rewrite run_cons_mounted, IH.
    destruct (advance_targets m g st o) as (-> & _).
    rewrite advance_isFrozen, Hreset, Hfist, Hoh. cbn [orb px py].
    rewrite S_INR. f_equal; ring.
Qed.

Lemma X14_rotation_accumulates_witness :
  targetRotation
    (fst (run ChairModel
            (repeat (mkGesture false false true false false false None
                       (mkPoint 0.06 (-0.15)) (mkPoint 0 0)) 4)
            initialState (Some (initialObject ChairModel))))
  = mkPoint (0 + INR 4 * 0.06) (0 + INR 4 * -0.15).
Proof.
  apply (X14_rotation_accumulates ChairModel
           (mkGesture false false true false false false None
              (mkPoint 0.06 (-0.15)) (mkPoint 0 0)) 4 initialState
           (initialObject ChairModel)); reflexivity.
Defined.

(** X15.  Repeated zooming in closed form: from a scale target of at most 3,
    [n] zoom-in frames (no zoom out, fist or reset) leave it at
    min (3, start + 0.02 n); from a scale target of at least the
    component's minimum, [n] zoom-out frames leave it at
    max (minimum, start - 0.02 n). *)
Theorem X15_zoom_closed_form
    (m : Model) (g : GestureState) (n : nat) (st : InteractionState)
    (o : Object3D.t) :
  isFist g = false -> isReset g = false ->
  (isZoomIn g = true -> isZoomOut g = false ->
   targetScale st <= scaleMax m ->
   targetScale (fst (run m (repeat g n) st (Some o)))
   = Rmin (scaleMax m) (targetScale st + INR n * 0.02))
  /\ (isZoomOut g = true -> isZoomIn g = false ->
      scaleMin m <= targetScale st ->
      targetScale (fst (run m (repeat g n) st (Some o)))
      = Rmax (scaleMin m) (targetScale st - INR n * 0.02)).
Proof.
  intros Hfist Hreset. split.
  - intros Hin Hout. revert st o.
    induction n as [| n IH]; intros st o Hle.
    + cbn [repeat run fst INR]. unfold Rmin.
      destruct (Rle_dec _ _); lra.
    + cbn [repeat]. rewrite run_cons_mounted.
      destruct (advance_targets m g st o) as (_ & _ & Es).
      rewrite advance_isFrozen, Hreset, Hfist, Hin, Hout in Es.
      rewrite !orb_true_r in Es. cbn [orb] in Es.
      rewrite IH; rewrite Es; [| apply Rmin_l].
      rewrite S_INR. pose proof (pos_INR n) as Hn.
      unfold Rmin, scaleMax in *. repeat destruct (Rle_dec _ _); lra.
  - intros Hout Hin. revert st o.
    induction n as [| n IH]; intros st o Hle.
    + cbn [repeat run fst INR]. unfold Rmax.
      destruct (Rle_dec _ _); lra.
    + cbn [repeat]. rewrite run_cons_mounted.
      destruct (advance_targets m g st o) as (_ & _ & Es).
      rewrite advance_isFrozen, Hreset, Hfist, Hin, Hout in Es.
      rewrite !orb_true_r in Es. cbn [orb] in Es.
      rewrite IH; rewrite Es; [| apply Rmax_l].
      rewrite S_INR. pose proof (pos_INR n) as Hn.
      unfold Rmax in *. repeat destruct (Rle_dec _ _); lra.
Qed.

Lemma X15_zoom_closed_form_witness :
  targetScale
    (fst (run SolarSystem (repeat (flags true false false false false false) 150)
            initialState (Some (initialObject SolarSystem))))
  = Rmin (scaleMax SolarSystem) (1 + INR 150 * 0.02)
  /\ targetScale
       (fst (run SolarSystem
               (repeat (flags false true false false false false) 150)
               initialState (Some (initialObject SolarSystem))))
     = Rmax (scaleMin SolarSystem) (1 - INR 150 * 0.02).
Proof.
  split.
  - apply (X15_zoom_closed_form SolarSystem
             (flags true false false false false false) 150 initialState
             (initialObject SolarSystem)); try reflexivity.
    unfold initialState, scaleMax. cbn [targetScale]. lra.
  - apply (X15_zoom_closed_form SolarSystem
             (flags false true false false false false) 150 initialState
             (initialObject SolarSystem)); try reflexivity.
    unfold initialState, scaleMin. cbn [targetScale]. lra.
Defined.

(** X16.  Zooming in and then out is a round trip below the upper clamp
    only: from a scale target [s] in range, a zoom-in frame followed by a
    zoom-out frame gives [s] back when [s + 0.02 <= 3], and gives 2.98,
    below [s], when [s] is within 0.02 of 3. *)
Theorem X16_zoom_round_trip
    (m : Model) (gIn gOut : GestureState) (st : InteractionState)
    (o : Object3D.t) :
  isZoomIn gIn = true -> isZoomOut gIn = false ->
  isFist gIn = false -> isReset gIn = false ->
  isZoomOut gOut = true -> isZoomIn gOut = false ->
  isFist gOut = false -> isReset gOut = false ->
  inScaleRange m (targetScale st) ->
  let s := targetScale st in
  let s' := targetScale (fst (run m [gIn; gOut] st (Some o))) in
  (s + 0.02 <= 3 -> s' = s)
  /\ (3 < s + 0.02 -> s' = 3 - 0.02 /\ s' < s).
Proof.
  intros Hi1 Hi2 Hi3 Hi4 Ho1 Ho2 Ho3 Ho4 [Hlo Hhi] s s'.
  unfold s'. rewrite !run_cons_mounted. cbn [run fst].
  set (st1 := fst (advance m gIn st o)).
  set (o1 := snd (advance m gIn st o)).
  destruct (advance_targets m gOut st1 o1) as (_ & _ & ->).
  rewrite advance_isFrozen, Ho1, Ho2, Ho3, Ho4.
  rewrite !orb_true_r. cbn [orb].
  unfold st1. destruct (advance_targets m gIn st o) as (_ & _ & ->).
  rewrite advance_isFrozen, Hi1, Hi2, Hi3, Hi4.
  rewrite !orb_true_r. cbn [orb].
  fold s. fold s in Hlo, Hhi.
  assert (Hmin : scaleMin m <= 0.3) by (destruct m; cbn [scaleMin]; lra).
  unfold Rmax, Rmin, scaleMax in *.
  split; intro Hs; repeat destruct (Rle_dec _ _); lra.
Qed.

Lemma X16_zoom_round_trip_witness :
  targetScale
    (fst (run CarModel
            [flags true false false false false false;
             flags false true false false false false]
            initialState (Some (initialObject CarModel))))
  = targetScale initialState.
Proof.
  refine (proj1 (X16_zoom_round_trip CarModel
                   (flags true false false false false false)
                   (flags false true false false false false)
                   initialState (initialObject CarModel)
                   eq_refl eq_refl eq_refl eq_refl
                   eq_refl eq_refl eq_refl eq_refl _) _);
    unfold inScaleRange, initialState, scaleMin, scaleMax;
    cbn [targetScale]; lra.
Defined.

Lemma lerp_towards (c t f : R) : lerp c t f = t + (1 - f) * (c - t).
Proof. unfold lerp. ring. Qed.

(** X17.  Exponential smoothing in closed form: over [n] frames with no flag
    set the targets stay put, and each rendered value ends at its goal plus
    the starting offset times 0.85^n (rotation, position) or 0.9^n (scale);
    the goal of the x rotation includes the component's tilt. *)
Theorem X17_smoothing_closed_form
    (m : Model) (g : GestureState) (n : nat) (st : InteractionState)
    (o : Object3D.t) :
  flagCount g = 0%nat ->
  exists st' o',
    run m (repeat g n) st (Some o) = (st', Some o')
    /\ targetRotation st' = targetRotation st
    /\ targetPosition st' = targetPosition st
    /\ targetScale st' = targetScale st
    /\ isFrozen st' = isFrozen st
    /\ (let goal := px (targetRotation st) + tilt m in
        px (Object3D.rotation o')
        = goal + 0.85 ^ n * (px (Object3D.rotation o) - goal))
    /\ (let goal := py (targetRotation st) in
        py (Object3D.rotation o')
        = goal + 0.85 ^ n * (py (Object3D.rotation o) - goal))
    /\ (let goal := px (targetPosition st) in
        px (Object3D.position o')
        = goal + 0.85 ^ n * (px (Object3D.position o) - goal))
    /\ (let goal := py (targetPosition st) in
        py (Object3D.position o')
        = goal + 0.85 ^ n * (py (Object3D.position o) - goal))
    /\ (let goal := targetScale st in
        Object3D.scale o' = goal + 0.9 ^ n * (Object3D.scale o - goal)).
Proof.
  intro Hidle.
  assert (Hstep : forall st1 o1,
             targetRotation (fst (advance m g st1 o1)) = targetRotation st1
             /\ targetPosition (fst (advance m g st1 o1)) = targetPosition st1
             /\ targetScale (fst (advance m g st1 o1)) = targetScale st1
             /\ isFrozen (fst (advance m g st1 o1)) = isFrozen st1).
  { intros st1 o1.
    destruct (advance_targets m g st1 o1) as (-> & -> & ->).
    rewrite advance_isFrozen. revert Hidle. unfold flagCount.
    destruct (isZoomIn g), (isZoomOut g), (isOpenHand g), (isFist g),
      (isPeace g), (isReset g); cbn; intro K; try discriminate K.
    destruct (isFrozen st1); repeat split. }
  revert st o. induction n as [| n IH]; intros st o.
  - exists st, o. cbn [repeat run pow]. cbv zeta.
    split; [reflexivity |].
    repeat (split; [first [reflexivity | ring] |]). ring.
  - cbn [repeat]. rewrite run_cons_mounted.
    destruct (Hstep st o) as (Hr & Hp & Hs & Hf).
    destruct (advance_object m g st o) as (Erx & Ery & Epx & Epy & Es).
    rewrite Hr in Erx, Ery. rewrite Hp in Epx, Epy. rewrite Hs in Es.
    destruct (IH (fst (advance m g st o)) (snd (advance m g st o)))
      as (st' & o' & Hrun & Hr' & Hp' & Hs' & Hf' & Rx & Ry & Px & Py & Sc).
    cbv zeta in Rx, Ry, Px, Py, Sc.
    rewrite Hr, Hp, Hs in *. rewrite Hf in Hf'.
    exists st', o'. split; [exact Hrun |].
    do 4 (split; [assumption |]).
    cbv zeta.
    rewrite Rx, Ry, Px, Py, Sc, Erx, Ery, Epx, Epy, Es, !lerp_towards.
    cbn [pow].
    repeat split;
      match goal with
      | |- context [?a ^ n] =>
          replace (1 - 0.15) with 0.85 by lra;
          replace (1 - 0.1) with 0.9 by lra;
          generalize (a ^ n); generalize a; intros a' k; ring
      end.
Qed.

Lemma X17_smoothing_closed_form_witness :
  exists st' o',
    run CarModel (repeat noGesture 10)
      (mkState (mkPoint 0 0) (mkPoint 3 2) 2 0.35 true)
      (Some (initialObject CarModel)) = (st', Some o')
    /\ px (Object3D.position o') = 3 + 0.85 ^ 10 * (0 - 3).
Proof.
  destruct (X17_smoothing_closed_form CarModel noGesture 10
              (mkState (mkPoint 0 0) (mkPoint 3 2) 2 0.35 true)
              (initialObject CarModel) eq_refl)
    as (st' & o' & Hrun & _ & _ & _ & _ & _ & _ & Px & _).
  exists st', o'. split; [exact Hrun | exact Px].
Defined.

Lemma lerp_between (lo hi c t : R) (f : R) :
  0 <= f <= 1 -> lo <= c <= hi -> lo <= t <= hi -> lo <= lerp c t f <= hi.
Proof.
  intros Hf Hc Ht. rewrite lerp_towards. split; nra.
Qed.

(** X18.  The rendered object never leaves the box its targets are kept in:
    if the position target and the rendered position are within [-3, 3] by
    [-2, 2], and the scale target and the rendered scale within the
    component's scale range, then after any sequence of mounted frames they
    all still are.  The refs and objects of the first render satisfy this. *)
Theorem X18_rendered_values_stay_in_range
    (m : Model) (gs : list GestureState) (st : InteractionState)
    (o : Object3D.t) :
  inPositionRange (targetPosition st) ->
  inPositionRange (Object3D.position o) ->
  inScaleRange m (targetScale st) ->
  inScaleRange m (Object3D.scale o) ->
  exists st' o',
    run m gs st (Some o) = (st', Some o')
    /\ inPositionRange (targetPosition st')
    /\ inPositionRange (Object3D.position o')
    /\ inScaleRange m (targetScale st')
    /\ inScaleRange m (Object3D.scale o').
Proof.
  revert st o. induction gs as [| g gs IH]; intros st o Htp Hop Hts Hos.
  - exists st, o. repeat split; solve [reflexivity | apply Htp | apply Hop
                                       | apply Hts | apply Hos].
  - rewrite run_cons_mounted.
    pose proof (advance_position_range m g st o Htp) as Htp'.
    pose proof (advance_scale_range m g st o Hts) as Hts'.
    destruct (advance_object m g st o) as (_ & _ & Epx & Epy & Es).
    apply IH; try assumption.
    + destruct Htp' as [Hx Hy], Hop as [Hox Hoy].
      split; [rewrite Epx | rewrite Epy]; apply lerp_between;
        solve [lra | assumption].
    + unfold inScaleRange in *. rewrite Es.
      apply lerp_between; solve [lra | assumption].
Qed.

Lemma X18_rendered_values_stay_in_range_witness :
  exists st' o',
    run SolarSystem
      [peacePush; flags true false false false false false; noGesture]
      initialState (Some (initialObject SolarSystem)) = (st', Some o')
    /\ inPositionRange (Object3D.position o')
    /\ inScaleRange SolarSystem (Object3D.scale o').
Proof.
  destruct (X18_rendered_values_stay_in_range SolarSystem
              [peacePush; flags true false false false false false; noGesture]
              initialState (initialObject SolarSystem))
    as (st' & o' & Hrun & _ & Hpos & _ & Hsc);
    try (unfold inPositionRange, inScaleRange, initialState, initialObject,
           scaleMin, scaleMax;
         cbn [targetPosition targetScale Object3D.position Object3D.scale
              px py]; lra).
  exists st', o'. split; [exact Hrun |]. split; assumption.
Defined.

(** The [currentScale] ref after a mounted frame. *)
Lemma advance_currentScale (m : Model) (g : GestureState)
    (st : InteractionState) (o : Object3D.t) :
  currentScale (fst (advance m g st o))
  = match m with
    | SolarSystem => Object3D.scale (snd (advance m g st o)) * 0.35
    | _ => currentScale st
    end.
Proof.
  unfold advance, smooth, updateTargets, zoomOutTarget, zoomInTarget,
    moveTarget, rotateTarget, resetTargets, freezeTransition.
  destruct m; cbn [fst snd currentScale Object3D.scale]; try reflexivity;
    destruct st as [tr tp ts cs fr], g as [zi zo oh fi pe re pp rot pos];
    cbn [isFrozen isFist isReset isOpenHand isZoomIn isZoomOut isPeace
         targetRotation targetPosition targetScale currentScale];
    destruct re, fi, oh, zi, zo, pe, fr; reflexivity.
Qed.

(** X19.  The solar system keeps its [currentScale] ref at 0.35 times the
    rendered scale after every mounted frame, and the planet labels stay
    hidden as long as no frame has zoom in set: from the first render, after
    any sequence of frames without zoom in, [currentScale] is at most 0.35
    and [showLabels] is false.  The other components never write the ref. *)
Theorem X19_labels_need_zoom_in :
  (forall (g : GestureState) (st : InteractionState) (o : Object3D.t),
      exists st' o',
        useFrame SolarSystem g st (Some o) = (st', Some o')
        /\ currentScale st' = Object3D.scale o' * 0.35)
  /\ (forall (m : Model) (g : GestureState) (st : InteractionState)
             (obj : option Object3D.t),
         m <> SolarSystem ->
         currentScale (fst (useFrame m g st obj)) = currentScale st)
  /\ (forall gs : list GestureState,
         Forall (fun g => isZoomIn g = false) gs ->
         let st' :=
           fst (run SolarSystem gs initialState
                  (Some (initialObject SolarSystem))) in
         currentScale st' <= 0.35 /\ showLabels st' = false).
Proof.
  split; [| split].
  - intros g st o. eexists. eexists.
    split; [apply useFrame_mounted |].
    apply (advance_currentScale SolarSystem).
  - intros m g st [o |] Hm; [| reflexivity].
    rewrite useFrame_mounted. cbn [fst]. rewrite advance_currentScale.
    destruct m; try reflexivity. contradiction.
  - intros gs Hgs.
    assert (Hinv : forall st o,
               targetScale st <= 1 -> Object3D.scale o <= 1 ->
               currentScale st <= 0.35 ->
               currentScale (fst (run SolarSystem gs st (Some o))) <= 0.35).
    { induction Hgs as [| g gs Hg Hgs IH]; intros st o Hts Hos Hcs.
      - exact Hcs.
      - rewrite run_cons_mounted.
        destruct (advance_targets SolarSystem g st o) as (_ & _ & Es).
        destruct (advance_object SolarSystem g st o) as (_ & _ & _ & _ & Eo).
        assert (Hts' : targetScale (fst (advance SolarSystem g st o)) <= 1).
        { rewrite Es, Hg. cbn [scaleMin].
          destruct (isFrozen _), (isReset g), (isZoomOut g);
            unfold Rmax; repeat destruct (Rle_dec _ _); lra. }
        assert (Hos' : Object3D.scale (snd (advance SolarSystem g st o)) <= 1).
        { rewrite Eo. unfold lerp.
          set (t := targetScale (fst (advance SolarSystem g st o))) in *.
          lra. }
        apply IH; try assumption.
        rewrite (advance_currentScale SolarSystem). lra. }
    intro st'.
    assert (Hcs : currentScale st' <= 0.35).
    { apply Hinv; unfold initialState, initialObject;
        cbn [targetScale currentScale Object3D.scale]; lra. }
    split; [exact Hcs |].
    unfold showLabels. apply Rgtb_false_iff. lra.
Qed.

Lemma X19_labels_need_zoom_in_witness :
  currentScale
    (fst (useFrame CarModel (flags true false false false false false)
            initialState (Some (initialObject CarModel))))
  = currentScale initialState
  /\ showLabels
       (fst (run SolarSystem [flags false true false false false false; noGesture]
               initialState (Some (initialObject SolarSystem)))) = false.
Proof.
  destruct X19_labels_need_zoom_in as (_ & Hother & Hlabels).
  split.
  - apply Hother. intro K. discriminate K.
  - apply Hlabels. repeat constructor.
Defined.
